(** * ecs-shell: task and container selection

    A shallow embedding of [find_task] and [find_container_name] from
    [aws/ecs-shell.py], together with the parts of the Python runtime they
    rely on: [str.split], [str.endswith], [str.replace], [sorted],
    [str.join], the built-in [max] with a key function, and the ordering of
    [datetime.datetime] values.

    Python strings are represented by their UTF-8 bytes.  The separators the
    program looks for (a slash, a capital Z) are ASCII, and the byte-wise
    lexicographic order of UTF-8 strings is the code point order Python
    uses, so nothing below depends on the difference.

    The selectors are embedded twice: over values, which is the form most
    of the results below are about, and over a store of objects that are
    passed by reference ([Store]), which is the form that shows what a
    call does to the dictionaries and lists it is handed. *)

From Stdlib Require Import ZArith Ascii String List Lia.
From Stdlib Require Import DecimalString.
From stdpp Require Import gmap strings sorting.

Local Open Scope string_scope.
Local Open Scope Z_scope.
Set Warnings "-clear-no-such-hyp".

(** ** Exceptions

    The selectors signal every failure with [ValueError]; [TypeError] is
    what the interpreter raises when two datetimes cannot be ordered. *)

Inductive exn : Type :=
  | ValueError (msg : string)
  | TypeError (msg : string)
  | StopIteration.

Inductive result (A : Type) : Type :=
  | Return (a : A)
  | Raise (e : exn).

Arguments Return {A} a.
Arguments Raise {A} e.

(** What ordering a naive against an aware datetime raises. *)
Definition naive_aware : exn :=
  TypeError "can't compare offset-naive and offset-aware datetimes".

(** ** Strings *)

Module Str.

(** [s.split(sep)] for a one-character separator. *)
Fixpoint split (sep : ascii) (s : string) : list string :=
  match s with
  | EmptyString => [EmptyString]
  | String c s' =>
      if Ascii.eqb c sep then EmptyString :: split sep s'
      else match split sep s' with
           | seg :: rest => String c seg :: rest
           | [] => [String c EmptyString]
           end
  end.

(** [s.endswith(suffix)]. *)
Definition endswith (s suffix : string) : bool :=
  let n := String.length s in
  let m := String.length suffix in
  (m <=? n)%nat && String.eqb (substring (n - m) m s) suffix.

(** [s.replace(old, new)] for a one-character [old]: every occurrence is
    replaced. *)
Fixpoint replace (old : ascii) (new : string) (s : string) : string :=
  match s with
  | EmptyString => EmptyString
  | String c s' =>
      if Ascii.eqb c old then new ++ replace old new s'
      else String c (replace old new s')
  end.

(** [sep.join(l)]. *)
Definition join (sep : string) (l : list string) : string :=
  String.concat sep l.

(** [sorted(l)] on strings. *)
Definition sorted (l : list string) : list string :=
  merge_sort String.le l.

End Str.

(** ** Datetimes

    A [datetime.datetime] value: the calendar fields and the UTC offset of
    its [tzinfo] in microseconds.  [None] is a naive datetime.

    An aware datetime is represented by its offset alone; which [tzinfo]
    object it carries is not recorded.  This is exact for a [tzinfo] of
    one fixed offset, such as [datetime.timezone] and the UTC zone that
    [fromisoformat] attaches.  Two datetimes that carry the very same
    [tzinfo] object are compared by Python field by field even where that
    object gives them different offsets (a zone with daylight saving
    time); the comparison below takes datetimes with different offsets to
    carry different [tzinfo] objects. *)

Module datetime.

Record t : Type := make {
  year : Z; month : Z; day : Z;
  hour : Z; minute : Z; second : Z; microsecond : Z;
  utcoffset : option Z
}.

(** [datetime.min], which carries no [tzinfo]. *)
Definition min : t := make 1 1 1 0 0 0 0 None.

Definition is_leap (y : Z) : bool :=
  (y mod 4 =? 0) && (negb (y mod 100 =? 0) || (y mod 400 =? 0)).

Definition days_before_year (y : Z) : Z :=
  let y' := y - 1 in y' * 365 + y' / 4 - y' / 100 + y' / 400.

Definition days_in_month (y m : Z) : Z :=
  if (m =? 2) && is_leap y then 29
  else nth (Z.to_nat m) [0; 31; 28; 31; 30; 31; 30; 31; 31; 30; 31; 30; 31] 0.

Definition days_before_month (y m : Z) : Z :=
  nth (Z.to_nat m) [0; 0; 31; 59; 90; 120; 151; 181; 212; 243; 273; 304; 334] 0
  + (if (2 <? m) && is_leap y then 1 else 0).

Definition toordinal (d : t) : Z :=
  days_before_year (year d) + days_before_month (year d) (month d) + day d.

(** The fields as the tuple that two datetimes are compared by. *)
Definition fields (d : t) : list Z :=
  [year d; month d; day d; hour d; minute d; second d; microsecond d].

Definition cmp_fields (a b : t) : comparison :=
  list_compare Z.compare (fields a) (fields b).

(** [a - b] in microseconds, without the offsets. *)
Definition sub_base (a b : t) : Z :=
  ((toordinal a - toordinal b) * 86400
   + (hour a * 3600 + minute a * 60 + second a)
   - (hour b * 3600 + minute b * 60 + second b)) * 1000000
  + (microsecond a - microsecond b).

(** [a > b].  Datetimes with the same offset (or both naive) are compared
    field by field; two aware datetimes with different offsets, which are
    taken to carry different [tzinfo] objects, are compared after
    subtracting the offsets; a naive and an aware datetime cannot be
    ordered. *)
Definition gt (a b : t) : result bool :=
  match utcoffset a, utcoffset b with
  | None, None => Return (bool_decide (cmp_fields a b = Gt))
  | Some oa, Some ob =>
      if oa =? ob then Return (bool_decide (cmp_fields a b = Gt))
      else Return (0 <? sub_base a b + ob - oa)
  | _, _ => Raise naive_aware
  end.

Definition is_aware (d : t) : bool :=
  match utcoffset d with Some _ => true | None => false end.

(** The ranges the constructor of [datetime.datetime] enforces. *)
Definition valid (d : t) : Prop :=
  1 ≤ year d ≤ 9999
  ∧ 1 ≤ month d ≤ 12
  ∧ 1 ≤ day d ≤ days_in_month (year d) (month d)
  ∧ 0 ≤ hour d ≤ 23
  ∧ 0 ≤ minute d ≤ 59
  ∧ 0 ≤ second d ≤ 59
  ∧ 0 ≤ microsecond d ≤ 999999.

(** The wall-clock reading in microseconds, and the instant it denotes
    once the offset is taken off. *)
Definition wall (d : t) : Z :=
  (toordinal d * 86400 + hour d * 3600 + minute d * 60 + second d) * 1000000
  + microsecond d.

Definition instant (d : t) : Z := wall d - default 0 (utcoffset d).

End datetime.

(** ** Parsing ISO 8601 text

    [fromisoformat] follows [datetime.fromisoformat] on the extended format
    that [datetime.isoformat] emits,

      YYYY-MM-DD[*HH[:MM[:SS[.fff[fff]]]][(+|-)HH:MM[:SS[.ffffff]]]]

    where [*] is any single character.  [None] stands for [ValueError].
    Newer interpreters (Python 3.11 and later) accept further spellings:
    the basic format without separators, week dates, fractions of a second
    of any number of digits, a Z for the offset.  Those are rejected here,
    which is why the selectors below take the parser as a parameter and the
    general results hold for any parser.  This one is used to evaluate the
    selectors on concrete text, all of it in the format above. *)

Module iso.

Definition is_digit (c : ascii) : bool :=
  let n := nat_of_ascii c in (48 <=? n)%nat && (n <=? 57)%nat.

Fixpoint digits (s : string) (acc : Z) : option Z :=
  match s with
  | EmptyString => Some acc
  | String c s' =>
      if is_digit c
      then digits s' (10 * acc + Z.of_nat (nat_of_ascii c - 48))
      else None
  end.

(** The [n]-digit number at position [p] of [s]. *)
Definition field (p n : nat) (s : string) : option Z :=
  let f := substring p n s in
  if (String.length f =? n)%nat then digits f 0 else None.

Definition char_at (p : nat) (c : ascii) (s : string) : option unit :=
  match get p s with
  | Some c' => if Ascii.eqb c c' then Some tt else None
  | None => None
  end.

(** HH[:MM[:SS[.fff[fff]]]] *)
Definition parse_hh_mm_ss_ff (s : string) : option (Z * Z * Z * Z) :=
  h ← field 0 2 s;
  match String.length s with
  | 2%nat => Some (h, 0, 0, 0)
  | 5%nat =>
      _ ← char_at 2 ":" s; m ← field 3 2 s; Some (h, m, 0, 0)
  | 8%nat =>
      _ ← char_at 2 ":" s; m ← field 3 2 s;
      _ ← char_at 5 ":" s; sec ← field 6 2 s; Some (h, m, sec, 0)
  | 12%nat =>
      _ ← char_at 2 ":" s; m ← field 3 2 s;
      _ ← char_at 5 ":" s; sec ← field 6 2 s;
      _ ← char_at 8 "." s; f ← field 9 3 s; Some (h, m, sec, f * 1000)
  | 15%nat =>
      _ ← char_at 2 ":" s; m ← field 3 2 s;
      _ ← char_at 5 ":" s; sec ← field 6 2 s;
      _ ← char_at 8 "." s; f ← field 9 6 s; Some (h, m, sec, f)
  | _ => None
  end.

Definition in_clock (hmsf : Z * Z * Z * Z) : bool :=
  let '(h, m, sec, _) := hmsf in (h <=? 23) && (m <=? 59) && (sec <=? 59).

(** The offset after the sign, in microseconds. *)
Definition parse_offset (negative : bool) (tzstr : string) : option Z :=
  match String.length tzstr with
  | 5%nat | 8%nat | 15%nat =>
      hmsf ← parse_hh_mm_ss_ff tzstr;
      if in_clock hmsf then
        let '(h, m, sec, f) := hmsf in
        let us := (h * 3600 + m * 60 + sec) * 1000000 + f in
        Some (if negative then - us else us)
      else None
  | _ => None
  end.

(** The time part: the clock, then the offset from the first sign on. *)
Definition parse_isoformat_time (tstr : string)
  : option (Z * Z * Z * Z * option Z) :=
  let tz_pos :=
    match index 0 "-" tstr with
    | Some i => Some (i, true)
    | None => match index 0 "+" tstr with
              | Some i => Some (i, false)
              | None => None
              end
    end in
  match tz_pos with
  | None =>
      hmsf ← parse_hh_mm_ss_ff tstr;
      if in_clock hmsf then Some (hmsf, None) else None
  | Some (i, negative) =>
      hmsf ← parse_hh_mm_ss_ff (substring 0 i tstr);
      off ← parse_offset negative
              (substring (S i) (String.length tstr - S i) tstr);
      if in_clock hmsf then Some (hmsf, Some off) else None
  end.

Definition fromisoformat (s : string) : option datetime.t :=
  y ← field 0 4 s; _ ← char_at 4 "-" s;
  mo ← field 5 2 s; _ ← char_at 7 "-" s;
  d ← field 8 2 s;
  if (1 <=? y) && (y <=? 9999) && (1 <=? mo) && (mo <=? 12)
     && (1 <=? d) && (d <=? datetime.days_in_month y mo)
  then
    if (String.length s =? 10)%nat
    then Some (datetime.make y mo d 0 0 0 0 None)
    else
      '(h, mi, sec, us, tz) ←
        parse_isoformat_time (substring 11 (String.length s - 11) s);
      Some (datetime.make y mo d h mi sec us tz)
  else None.

End iso.

(** ** The data model

    The dictionaries of the ECS API (the [TypedDict]s of the script).  A key
    the script reads with [dict.get] is optional and its field is an
    [option]; a key it reads with a subscript is always there. *)

(** What may sit under ["startedAt"]. *)
Inductive value : Type :=
  | VNone
  | VDatetime (d : datetime.t)
  | VStr (s : string)
  | VInt (n : Z).

Module Container.
Record t : Type := make {
  name : string;
  lastStatus : string
}.
End Container.

Module ContainerDefinition.
Record t : Type := make {
  name : string;
  essential : option bool
}.
End ContainerDefinition.

Module Task.
Record t : Type := make {
  taskArn : string;
  taskDefinitionArn : string;
  startedAt : option value;
  containers : option (list Container.t)
}.
End Task.

Module TaskDefinition.
Record t : Type := make {
  taskDefinitionArn : string;
  containerDefinitions : option (list ContainerDefinition.t)
}.
End TaskDefinition.

(** ** Iterating over a set

    Python iterates over a set of strings in an order that depends on the
    hash seed of the process.  A [set_order] is one such order: some
    enumeration of the members, each once. *)

Record set_order : Type := {
  iter : gset string → list string;
  iter_perm : ∀ s, iter s ≡ₚ elements s
}.

Definition elements_order : set_order :=
  {| iter := elements; iter_perm := λ s, reflexivity (elements s) |}.

Definition reversed_order : set_order :=
  {| iter := λ s, reverse (elements s);
     iter_perm := λ s, reverse_Permutation (elements s) |}.

(** ** The container selector *)

(** [task.get("containers", [])] *)
Definition task_containers (task : Task.t) : list Container.t :=
  default [] (Task.containers task).

(** [{container["name"] for container in containers}] *)
Definition container_names (task : Task.t) : gset string :=
  list_to_set (Container.name <$> task_containers task).

(** [task_definition.get("containerDefinitions", [])] *)
Definition container_definitions (task_definition : TaskDefinition.t)
  : list ContainerDefinition.t :=
  default [] (TaskDefinition.containerDefinitions task_definition).

(** [container_def.get("essential", False)] *)
Definition is_essential (container_def : ContainerDefinition.t) : bool :=
  default false (ContainerDefinition.essential container_def).

(** The set comprehension over the container definitions. *)
Definition essential_containers
    (task : Task.t) (task_definition : TaskDefinition.t) : gset string :=
  list_to_set
    (ContainerDefinition.name <$>
       filter (λ container_def,
                 is_essential container_def = true
                 ∧ ContainerDefinition.name container_def ∈ container_names task)
              (container_definitions task_definition)).

Section container_selector.
Variable order : set_order.

(** [find_container_name(task, task_definition, specified_container)].
    A non-empty string is the only [specified_container] that is true. *)
Definition find_container_name
    (task : Task.t) (task_definition : TaskDefinition.t)
    (specified_container : option string) : result string :=
  let containers := task_containers task in
  let container_names := container_names task in
  match specified_container with
  | Some (String _ _ as specified_container) =>
      if bool_decide (specified_container ∉ container_names) then
        Raise (ValueError
          ("Container '" ++ specified_container ++ "' not found in task. "
           ++ "Available containers: "
           ++ Str.join ", " (Str.sorted (iter order container_names))))
      else Return specified_container
  | _ =>
      match containers with
      | [] => Raise (ValueError "No containers found in task")
      | [container] => Return (Container.name container)
      | _ =>
          let essential_containers :=
            essential_containers task task_definition in
          if (size essential_containers =? 1)%nat then
            match iter order essential_containers with
            | first :: _ => Return first
            | [] => Raise StopIteration
            end
          else
            Raise (ValueError
              ("Container name must be specified with -c because it cannot be "
               ++ "automatically determined. Available containers: "
               ++ Str.join ", " (Str.sorted (iter order container_names))))
      end
  end.

End container_selector.

(** ** The task selector *)

(** [task["taskArn"].split("/")[-1]] *)
Definition task_ident (task : Task.t) : string :=
  List.last (Str.split "/" (Task.taskArn task)) EmptyString.

(** The built-in [max(iterable, key=...)]: the first item is the candidate,
    and a later item replaces it when its key is greater than the
    candidate's. *)
Fixpoint max_loop {A K : Type} (gt : K → K → result bool) (key : A → K)
    (maxitem : A) (maxval : K) (it : list A) : result A :=
  match it with
  | [] => Return maxitem
  | item :: it' =>
      let val := key item in
      match gt val maxval with
      | Return true => max_loop gt key item val it'
      | Return false => max_loop gt key maxitem maxval it'
      | Raise e => Raise e
      end
  end.

Definition py_max {A K : Type} (gt : K → K → result bool) (key : A → K)
    (iterable : list A) : result A :=
  match iterable with
  | [] => Raise (ValueError "max() arg is an empty sequence")
  | item :: it => max_loop gt key item (key item) it
  end.

Section task_selector.
Variable fromisoformat : string → option datetime.t.

(** The key function local to [find_task].  The [ValueError] of the parser
    is caught there, so the key function itself never raises. *)
Definition get_start_time (task : Task.t) : datetime.t :=
  match Task.startedAt task with
  | None | Some VNone => datetime.min
  | Some (VDatetime started_at) => started_at
  | Some (VStr started_at) =>
      let started_at :=
        if Str.endswith started_at "Z"
        then Str.replace "Z" "+00:00" started_at
        else started_at in
      match fromisoformat started_at with
      | Some d => d
      | None => datetime.min
      end
  | Some _ => datetime.min
  end.

(** [find_task(tasks, task_id)].  The [for] loop returns at the first task
    whose identifier is [task_id]. *)
Definition find_task (tasks : list Task.t) (task_id : option string)
  : result Task.t :=
  match tasks with
  | [] => Raise (ValueError "No running tasks found")
  | _ =>
      match task_id with
      | Some (String _ _ as task_id) =>
          match List.find (λ task, String.eqb (task_ident task) task_id) tasks with
          | Some task => Return task
          | None =>
              let task_ids := task_ident <$> tasks in
              Raise (ValueError
                ("Task '" ++ task_id ++ "' not found. Available tasks: "
                 ++ Str.join ", " (Str.sorted task_ids)))
          end
      | _ => py_max datetime.gt get_start_time tasks
      end
  end.

End task_selector.

(** ** Notions used in the statements *)

(** What [sorted(a_set)] is, whatever the iteration order. *)
Definition sorted_listing (s : gset string) (l : list string) : Prop :=
  Sorted String.le l ∧ NoDup l ∧ ∀ x, x ∈ l ↔ x ∈ s.

(** [m] is the first of the greatest items of [l], which is
    [before ++ m :: after]: it is greater than all items before it, and no
    item after it is greater. *)
Definition first_max {A K : Type} (gtb : K → K → bool) (key : A → K)
    (l before : list A) (m : A) (after : list A) : Prop :=
  l = (before ++ m :: after)%list
  ∧ Forall (λ x, gtb (key m) (key x) = true) before
  ∧ Forall (λ x, gtb (key x) (key m) = false) after.

(** The order on datetimes that share their offset. *)
Definition later (a b : datetime.t) : bool :=
  bool_decide (datetime.cmp_fields a b = Gt).

(** [s.count(c)] for a character. *)
Fixpoint count_char (c : ascii) (s : string) : nat :=
  match s with
  | EmptyString => 0
  | String a s' => (if Ascii.eqb a c then 1 else 0) + count_char c s'
  end.

(** ** The normalisation of the start time, from the specification *)

Module spec.

(** The normalisation as the specification words it: of a text that ends
    in Z, the trailing Z, and only that one, becomes +00:00. *)
Definition trailing_z_to_offset (s : string) : string :=
  if Str.endswith s "Z"
  then substring 0 (String.length s - 1) s ++ "+00:00"
  else s.

Definition normalized_start (fromisoformat : string → option datetime.t)
    (started_at : option value) : datetime.t :=
  match started_at with
  | None | Some VNone => datetime.min
  | Some (VDatetime d) => d
  | Some (VStr s) =>
      match fromisoformat (trailing_z_to_offset s) with
      | Some d => d
      | None => datetime.min
      end
  | Some (VInt _) => datetime.min
  end.

End spec.

(** ** Sample data *)

(** The two tasks of the specification's example: A has no start time, B
    started at "2024-01-01T00:00:00Z". *)
Definition task_A : Task.t :=
  Task.make "arn:aws:ecs:eu-west-1:111122223333:task/prod/A" "app:7" None None.

Definition task_B : Task.t :=
  Task.make "arn:aws:ecs:eu-west-1:111122223333:task/prod/B" "app:7"
    (Some (VStr "2024-01-01T00:00:00Z")) None.

(** A task that has not started yet and a running one, with the aware
    datetime the API client delivers. *)
Definition task_pending : Task.t :=
  Task.make "arn:aws:ecs:eu-west-1:111122223333:task/prod/9f8e7d" "app:7"
    None None.

Definition task_running : Task.t :=
  Task.make "arn:aws:ecs:eu-west-1:111122223333:task/prod/1c2d3e" "app:7"
    (Some (VDatetime (datetime.make 2024 5 17 9 30 0 0 (Some 7200000000))))
    None.

(** A task that started the evening before [task_running], with a start
    time in the same zone. *)
Definition task_older : Task.t :=
  Task.make "arn:aws:ecs:eu-west-1:111122223333:task/prod/7e6f5a" "app:7"
    (Some (VDatetime (datetime.make 2024 5 16 22 15 0 0 (Some 7200000000))))
    None.

(** A start time spelled with Z as the separator as well. *)
Definition task_inner_z : Task.t :=
  Task.make "arn:aws:ecs:eu-west-1:111122223333:task/prod/4b5a69" "app:7"
    (Some (VStr "2024-01-01Z00:00:00Z")) None.

(** Tasks with two, one and no containers, and a task definition for them
    that also lists a container that is not running. *)
Definition web_sidecar : Task.t :=
  Task.make "arn:aws:ecs:eu-west-1:111122223333:task/prod/0a1b2c" "app:7" None
    (Some [Container.make "web" "RUNNING"; Container.make "sidecar" "RUNNING"]).

Definition web_only : Task.t :=
  Task.make "arn:aws:ecs:eu-west-1:111122223333:task/prod/3d4e5f" "app:7" None
    (Some [Container.make "web" "RUNNING"]).

Definition no_containers : Task.t :=
  Task.make "arn:aws:ecs:eu-west-1:111122223333:task/prod/6a7b8c" "app:7" None
    None.

Definition app_definition (web sidecar : bool) : TaskDefinition.t :=
  TaskDefinition.make "app:7"
    (Some [ContainerDefinition.make "web" (Some web);
           ContainerDefinition.make "sidecar" (Some sidecar);
           ContainerDefinition.make "migrate" (Some true)]).

(** ** The rest of the script

    The functions around the selectors talk to the ECS API, print, and start
    the AWS command line client.  What the outside answers is given by a
    [world]; what the script does to the outside is recorded, in order, as a
    list of [event]s. *)

(** [s.split("/")[-1]], as the script writes it for ARNs. *)
Definition last_segment (s : string) : string :=
  List.last (Str.split "/" s) EmptyString.

(** [c in s] for a character. *)
Fixpoint contains_char (c : ascii) (s : string) : bool :=
  match s with
  | EmptyString => false
  | String a s' => Ascii.eqb a c || contains_char c s'
  end.

(** [len(s)]: the code points of the text, which are the bytes of its UTF-8
    form other than continuation bytes. *)
Definition is_continuation (c : ascii) : bool :=
  let n := nat_of_ascii c in (128 <=? n)%nat && (n <? 192)%nat.

Fixpoint py_len (s : string) : nat :=
  match s with
  | EmptyString => 0
  | String c s' => (if is_continuation c then 0 else 1) + py_len s'
  end.

(** [str(n)] for an integer. *)
Definition str_of_int (n : Z) : string :=
  NilZero.string_of_int (Z.to_int n).

(** [s * n] for a one-character [s]. *)
Fixpoint repeat_char (c : ascii) (n : nat) : string :=
  match n with
  | O => EmptyString
  | S n' => String c (repeat_char c n')
  end.

Module Service.
Record t : Type := make {
  serviceName : string;
  serviceArn : string;
  taskDefinition : string;
  desiredCount : Z;
  runningCount : option Z
}.
End Service.

(** An exception as the [except] clauses of [main] tell them apart: one of
    the built-in ones above, botocore's [ClientError], or any other
    [Exception]; the latter two with their [str(e)]. *)
Inductive raised : Type :=
  | Builtin (e : exn)
  | ClientError (msg : string)
  | OtherException (msg : string).

Definition str_of_raised (e : raised) : string :=
  match e with
  | Builtin (ValueError msg) | Builtin (TypeError msg) => msg
  | Builtin StopIteration => EmptyString
  | ClientError msg | OtherException msg => msg
  end.

(** A cell of the overview table: text or a count. *)
Inductive cell : Type :=
  | Text (s : string)
  | Number (n : Z).

Definition str_of_cell (c : cell) : string :=
  match c with
  | Text s => s
  | Number n => str_of_int n
  end.

Inductive event : Type :=
  | Printed (text : string)
  | PrintedGrid (headers : list string) (rows : list (list cell))
  | ListClusters
  | ListServices (cluster : string)
  | DescribeServices (cluster service : string)
  | ListTasks (cluster service : string)
  | DescribeTasks (cluster : string) (tasks : list string)
  | DescribeTaskDefinition (task_definition : string)
  | Ran (argv : list string).

(** How a call ends: with a value, with an exception, or in [sys.exit]. *)
Inductive ending (A : Type) : Type :=
  | Finished (a : A)
  | Thrown (e : raised)
  | Exited (code : Z).

Arguments Finished {A} a.
Arguments Thrown {A} e.
Arguments Exited {A} code.

Definition prog (A : Type) : Type := list event * ending A.

Definition ret {A} (a : A) : prog A := ([], Finished a).

Definition bind {A B} (m : prog A) (k : A → prog B) : prog B :=
  match m with
  | (done_before, Finished a) =>
      let '(done_after, e) := k a in ((done_before ++ done_after)%list, e)
  | (done_before, Thrown e) => (done_before, Thrown e)
  | (done_before, Exited code) => (done_before, Exited code)
  end.

Notation "x ←' m ; k" := (bind m (λ x, k))
  (at level 20, m at level 100, k at level 200, only parsing).
Notation "m ;;' k" := (bind m (λ _, k))
  (at level 100, k at level 200, right associativity, only parsing).

Definition print (text : string) : prog unit := ([Printed text], Finished tt).

Definition throw {A} (e : raised) : prog A := ([], Thrown e).

(** [sys.exit(code)] *)
Definition sys_exit {A} (code : Z) : prog A := ([], Exited code).

(** [try: m  except Exception as e: handler(e)].  [SystemExit] is no
    [Exception] and passes. *)
Definition try_except {A} (m : prog A) (handler : raised → prog A) : prog A :=
  match m with
  | (done_before, Thrown e) =>
      let '(done_after, r) := handler e in ((done_before ++ done_after)%list, r)
  | _ => m
  end.

(** A selector called from [main]. *)
Definition of_result {A} (r : result A) : prog A :=
  match r with
  | Return a => ret a
  | Raise e => throw (Builtin e)
  end.

(** What an API call answers. *)
Inductive response (A : Type) : Type :=
  | Response (a : A)
  | Failure (e : raised).

Arguments Response {A} a.
Arguments Failure {A} e.

Definition call {A} (ev : event) (r : response A) : prog A :=
  ([ev], match r with Response a => Finished a | Failure e => Thrown e end).

(** How [subprocess.run(aws_cmd, check=True)] ends. *)
Inductive run_result : Type :=
  | Completed
  | KeyboardInterrupt
  | CalledProcessError (str_e : string) (stderr : option string)
  | RunRaised (e : raised).

(** The outside.  A paginator answers with its pages, each page with what
    sits under its key, if anything; the other calls answer with the part
    of the response the script reads. An answer depends on the arguments
    of the call only. *)
Record world : Type := {
  list_clusters : response (list (option (list string)));
  list_services : string → response (list (option (list string)));
  describe_services : string → string → response (option (list Service.t));
  list_tasks : string → string → response (option (list string));
  describe_tasks : string → list string → response (list Task.t);
  describe_task_definition : string → response TaskDefinition.t;
  run : list string → run_result;
  tabulate_installed : bool
}.

(** What [argparse] hands to [main]. *)
Module Args.
Record t : Type := make {
  cluster_name : option string;
  service_name : option string;
  task : option string;
  container : option string;
  shell : string
}.
End Args.



(** [task_def] in [get_task_definition]: the last segment of the ARN, up to
    its first colon. *)
Definition task_definition_name (task_definition_arn : string) : string :=
  let task_def := last_segment task_definition_arn in
  if contains_char ":" task_def
  then hd EmptyString (Str.split ":" task_def)
  else task_def.

Definition aws_cmd (cluster task_id container command : string) : list string :=
  ["aws"; "ecs"; "execute-command";
   "--cluster"; cluster;
   "--task"; task_id;
   "--container"; container;
   "--command"; command;
   "--interactive"].

(** The fallback of [display_clusters_table] when [tabulate] is missing. *)

Definition headers : list string :=
  ["Cluster Name"; "Service Name"; "Running Tasks"; "Task Definition"].

(** [row[i]]; the rows of the table all have a cell for every header. *)
Definition cell_text (row : list string) (i : nat) : string :=
  nth i row EmptyString.

Definition col_widths (head : list string) (rows : list (list string))
  : list nat :=
  (λ i, max_list ((λ row, py_len (cell_text row i)) <$> head :: rows))
    <$> seq 0 (length head).

(** ["{:w}".format(s)] for text: padded with spaces on the right. *)
Definition format_cell (w : nat) (s : string) : string :=
  s ++ repeat_char " " (w - py_len s).

(** [" | ".join("{:w}" ...).format( *row)] *)
Definition format_row (widths : list nat) (row : list string) : string :=
  Str.join " | " (imap (λ i w, format_cell w (cell_text row i)) widths).

Definition rule (widths : list nat) (head : list string) : string :=
  repeat_char "-" (sum_list widths + 3 * (length head - 1)).

(** [[str(item) for item in row]] *)
Definition row_text (row : list cell) : list string :=
  List.map str_of_cell row.

Definition table_lines (head : list string) (rows : list (list cell))
  : list string :=
  let rows := List.map row_text rows in
  let widths := col_widths head rows in
  format_row widths head
  :: rule widths head
  :: List.map (format_row widths) rows.

Section script.
Variable fromisoformat : string → option datetime.t.
Variable order : set_order.
Variable aws : world.

Definition get_all_clusters : prog (list string) :=
  pages ←' call ListClusters (list_clusters aws);
  let cluster_arns := concat (default [] <$> pages) in
  ret (last_segment <$> cluster_arns).

Definition get_services_for_cluster (cluster : string) : prog (list string) :=
  pages ←' call (ListServices cluster) (list_services aws cluster);
  let service_arns := concat (default [] <$> pages) in
  ret (last_segment <$> service_arns).

Definition get_service_details (cluster service : string) : prog Service.t :=
  services ←' call (DescribeServices cluster service)
                   (describe_services aws cluster service);
  match services with
  | Some (first :: _) => ret first
  | _ =>
      throw (Builtin (ValueError
        ("Service '" ++ service ++ "' not found in cluster '" ++ cluster
         ++ "'")))
  end.

Definition get_task_definition (task_definition_arn : string)
  : prog TaskDefinition.t :=
  let task_def := task_definition_name task_definition_arn in
  call (DescribeTaskDefinition task_def) (describe_task_definition aws task_def).

Definition get_tasks_for_service (cluster service : string)
  : prog (list Task.t) :=
  task_arns ←' call (ListTasks cluster service) (list_tasks aws cluster service);
  match default [] task_arns with
  | [] => ret []
  | task_arns => call (DescribeTasks cluster task_arns)
                      (describe_tasks aws cluster task_arns)
  end.

Definition execute_interactive_command
    (cluster task_id container command : string) : prog unit :=
  print ("Connecting to container '" ++ container ++ "' in task '" ++ task_id
         ++ "' on cluster '" ++ cluster ++ "'...") ;;'
  print ("Executing command: " ++ command) ;;'
  let aws_cmd := aws_cmd cluster task_id container command in
  bind ([Ran aws_cmd], Finished (run aws aws_cmd)) (λ ended,
  match ended with
  | Completed => ret tt
  | KeyboardInterrupt =>
      print (String "010" ("Command interrupted with CTRL+C. "
                           ++ "The shell session has been terminated.")) ;;'
      print "You can run the script again to start a new session."
  | CalledProcessError str_e stderr =>
      print ("Failed to execute command: " ++ str_e) ;;'
      match stderr with
      | Some (String _ _ as stderr) => print ("Error details: " ++ stderr)
      | _ => ret tt
      end ;;'
      sys_exit 1
  | RunRaised e => throw e
  end).

(** One turn of the inner loop of [display_clusters_table]: the row of a
    service, or the row that reports why there is none. *)
Definition service_row (cluster service : string) : prog (list cell) :=
  try_except
    (service_details ←' get_service_details cluster service;
     let task_definition :=
       last_segment (Service.taskDefinition service_details) in
     let running_count := default 0 (Service.runningCount service_details) in
     ret [Text cluster; Text service; Number running_count;
          Text task_definition])
    (λ e, ret [Text cluster; Text service;
               Text ("Error: " ++ str_of_raised e); Text EmptyString]).

Fixpoint service_rows (cluster : string) (services : list string)
  : prog (list (list cell)) :=
  match services with
  | [] => ret []
  | service :: services =>
      row ←' service_row cluster service;
      rows ←' service_rows cluster services;
      ret (row :: rows)
  end.

(** One turn of the outer loop.  The inner loop cannot raise, so the rows
    are all there when the handler is not taken. *)
Definition cluster_rows (cluster : string) : prog (list (list cell)) :=
  try_except
    (services ←' get_services_for_cluster cluster;
     service_rows cluster (Str.sorted services))
    (λ e, ret [[Text cluster;
                Text ("Error listing services: " ++ str_of_raised e);
                Text EmptyString; Text EmptyString]]).

Fixpoint table_rows (clusters : list string) : prog (list (list cell)) :=
  match clusters with
  | [] => ret []
  | cluster :: clusters =>
      rows ←' cluster_rows cluster;
      more ←' table_rows clusters;
      ret (rows ++ more)%list
  end.

Fixpoint print_all (lines : list string) : prog unit :=
  match lines with
  | [] => ret tt
  | line :: lines => print line ;;' print_all lines
  end.

Definition display_clusters_table : prog unit :=
  clusters ←' get_all_clusters;
  match clusters with
  | [] => print "No ECS clusters found"
  | _ =>
      rows ←' table_rows (Str.sorted clusters);
      if tabulate_installed aws
      then ([PrintedGrid headers rows], Finished tt)
      else print_all (table_lines headers rows)
  end.

(** The body of [main] that follows [args = parse_args()]. *)
Definition main (args : Args.t) : prog unit :=
  match Args.cluster_name args, Args.service_name args with
  | Some (String _ _ as cluster_name), Some (String _ _ as service_name) =>
      try_except
        (tasks ←' get_tasks_for_service cluster_name service_name;
         match tasks with
         | [] =>
             print ("No running tasks found for service '" ++ service_name
                    ++ "' in cluster '" ++ cluster_name ++ "'")
         | _ =>
             task ←' of_result (find_task fromisoformat tasks (Args.task args));
             let task_id := last_segment (Task.taskArn task) in
             task_definition ←'
               get_task_definition (Task.taskDefinitionArn task);
             container_name ←'
               of_result (find_container_name order task task_definition
                            (Args.container args));
             execute_interactive_command cluster_name task_id container_name
               (Args.shell args)
         end)
        (λ e,
           match e with
           | ClientError msg => print ("AWS Error: " ++ msg) ;;' sys_exit 1
           | Builtin (ValueError msg) => print ("Error: " ++ msg) ;;' sys_exit 1
           | _ => print ("Unexpected error: " ++ str_of_raised e) ;;' sys_exit 1
           end)
  | _, _ => display_clusters_table
  end.


End script.

(** ** Notions used in the statements about the script *)

(** What an optional command line argument asks for: nothing when it is
    absent or empty, which is how [if value:] reads it. *)
Definition requested (option_value : option string) : option string :=
  match option_value with
  | Some (String _ _ as text) => Some text
  | _ => None
  end.

(** The events of the overview: printing, and listing and describing
    clusters and services. *)
Definition overview_event (ev : event) : Prop :=
  match ev with
  | Printed _ | PrintedGrid _ _ | ListClusters | ListServices _
  | DescribeServices _ _ => True
  | ListTasks _ _ | DescribeTasks _ _ | DescribeTaskDefinition _ | Ran _ =>
      False
  end.

(** The calls made while the rows of the overview are collected. *)
Definition lookup_event (ev : event) : Prop :=
  match ev with
  | ListClusters | ListServices _ | DescribeServices _ _ => True
  | _ => False
  end.

(** The first two cells of a row, as printed. *)
Definition row_cluster (row : list cell) : string :=
  cell_text (row_text row) 0.

Definition row_service (row : list cell) : string :=
  cell_text (row_text row) 1.

(** ** A sample of the outside

    Two clusters, of which [dev] refuses to list its services; of the two
    services of [prod], [web] is described and [api] is not; the service
    runs the given tasks, and the command ends as given. *)

Definition sample_world (tasks : list Task.t) (ended : run_result) : world := {|
  list_clusters :=
    Response [Some ["arn:aws:ecs:eu-west-1:111122223333:cluster/prod";
                    "arn:aws:ecs:eu-west-1:111122223333:cluster/dev"];
              None];
  list_services cluster :=
    if String.eqb cluster "prod"
    then Response [Some ["arn:aws:ecs:eu-west-1:111122223333:service/prod/web";
                         "arn:aws:ecs:eu-west-1:111122223333:service/prod/api"]]
    else Failure (ClientError "AccessDeniedException");
  describe_services cluster service :=
    if String.eqb service "web"
    then Response (Some [Service.make "web"
           "arn:aws:ecs:eu-west-1:111122223333:service/prod/web"
           "arn:aws:ecs:eu-west-1:111122223333:task-definition/app:7"
           2 (Some 2)])
    else Response (Some []);
  list_tasks cluster service :=
    Response (match tasks with
              | [] => None
              | _ => Some (Task.taskArn <$> tasks)
              end);
  describe_tasks cluster task_arns := Response tasks;
  describe_task_definition task_definition :=
    Response (app_definition true false);
  run argv := ended;
  tabulate_installed := false
|}.

Definition sample_args (task container : option string) : Args.t :=
  Args.make (Some "prod") (Some "web") task container "bash".

Definition overview_args : Args.t :=
  Args.make (Some "prod") None (Some "B") None "bash".

Definition sample_prod_rows : list (list cell) :=
  [[Text "prod"; Text "api";
    Text "Error: Service 'api' not found in cluster 'prod'"; Text EmptyString];
   [Text "prod"; Text "web"; Number 2; Text "app:7"]].

Definition sample_rows : list (list cell) :=
  [Text "dev"; Text "Error listing services: AccessDeniedException";
   Text EmptyString; Text EmptyString]
  :: sample_prod_rows.

(** ** The selectors over a store

    Python hands dictionaries and lists to a function by reference: what
    [find_task] and [find_container_name] receive are the places of
    objects that the caller can still reach afterwards, and that a callee
    could change.  Here the selectors are written once more, statement by
    statement, over a store of such objects: an argument is a place in the
    store, every read goes through the store, and every list or set the
    selectors build is a new object of the store.  A run takes the store it
    starts from to the store it leaves behind and to its result. *)

Module Store.

(** The place of an object. *)
Definition loc : Type := positive.

(** The objects: the dictionaries that the script declares as [TypedDict]s,
    with the keys it reads, and the lists and sets.  A key of a dictionary
    that is read with [.get] may be missing.  Strings, datetimes and
    numbers are values: Python cannot change them, and they sit in the
    objects themselves. *)
Inductive object : Type :=
  | TaskDict (taskArn taskDefinitionArn : string)
      (startedAt : option value) (containers : option loc)
  | ContainerDict (name lastStatus : string)
  | TaskDefinitionDict (taskDefinitionArn : string)
      (containerDefinitions : option loc)
  | ContainerDefinitionDict (name : string) (essential : option bool)
  | DictList (items : list loc)
  | StrList (items : list string)
  | StrSet (members : gset string).

Abbreviation t := (gmap loc object).

(** A run: from the store before to the store after, with the value
    returned or the exception raised.  There is no result ([None]) when a
    place that is read holds nothing, or holds an object of another type
    than the script declares for it: what the interpreter does with such
    data is not modelled. *)
Definition run (A : Type) : Type := t → t * option (result A).

Definition ret {A} (a : A) : run A := λ h, (h, Some (Return a)).

Definition raise {A} (e : exn) : run A := λ h, (h, Some (Raise e)).

Definition untyped {A} : run A := λ h, (h, None).

Definition bind {A B} (m : run A) (k : A → run B) : run B :=
  λ h,
    match m h with
    | (h', Some (Return a)) => k a h'
    | (h', Some (Raise e)) => (h', Some (Raise e))
    | (h', None) => (h', None)
    end.

Notation "x ←ₛ m ; k" := (bind m (λ x, k))
  (at level 20, m at level 100, k at level 200, only parsing).

(** Reading the object at a place. *)
Definition load (l : loc) : run object :=
  λ h, (h, Return <$> h !! l).

(** A new object: it gets a place that holds nothing yet. *)
Definition alloc (o : object) : run loc :=
  λ h, let l := fresh (dom h) in (<[l := o]> h, Some (Return l)).

Definition load_list (l : loc) : run (list loc) :=
  o ←ₛ load l;
  match o with
  | DictList items => ret items
  | _ => untyped
  end.

Definition load_strs (l : loc) : run (list string) :=
  o ←ₛ load l;
  match o with
  | StrList items => ret items
  | _ => untyped
  end.

Definition load_set (l : loc) : run (gset string) :=
  o ←ₛ load l;
  match o with
  | StrSet members => ret members
  | _ => untyped
  end.

(** [[f(x) for x in items if ...]]: [f] answers [None] for an item that the
    condition leaves out. *)
Fixpoint comprehension {A} (f : loc → run (option A)) (items : list loc)
  : run (list A) :=
  match items with
  | [] => ret []
  | item :: items =>
      a ←ₛ f item;
      rest ←ₛ comprehension f items;
      ret (match a with Some a => a :: rest | None => rest end)
  end.

(** [sorted(a_set)]: a new list. *)
Definition sorted_set (order : set_order) (s : loc) : run loc :=
  members ←ₛ load_set s;
  alloc (StrList (Str.sorted (iter order members))).

(** [sorted(a_list)]: a new list. *)
Definition sorted_list (l : loc) : run loc :=
  items ←ₛ load_strs l;
  alloc (StrList (Str.sorted items)).

(** [sep.join(a_list)] *)
Definition join (sep : string) (l : loc) : run string :=
  items ←ₛ load_strs l;
  ret (Str.join sep items).

(** [container["name"]] *)
Definition container_name (container : loc) : run string :=
  o ←ₛ load container;
  match o with
  | ContainerDict name _ => ret name
  | _ => untyped
  end.

(** The element of the second set comprehension of [find_container_name]
    and its condition. *)
Definition essential_name (container_names : loc) (container_def : loc)
  : run (option string) :=
  o ←ₛ load container_def;
  match o with
  | ContainerDefinitionDict name essential =>
      if default false essential then
        members ←ₛ load_set container_names;
        if bool_decide (name ∈ members) then ret (Some name) else ret None
      else ret None
  | _ => untyped
  end.

Section container_selector.
Variable order : set_order.

Definition find_container_name
    (task task_definition : loc) (specified_container : option string)
  : run string :=
  (* containers = task.get("containers", []) *)
  empty ←ₛ alloc (DictList []);
  task_dict ←ₛ load task;
  match task_dict with
  | TaskDict _ _ _ task_containers =>
      let containers := default empty task_containers in
      (* container_names = {container["name"] for container in containers} *)
      items ←ₛ load_list containers;
      names ←ₛ comprehension
                 (λ container, name ←ₛ container_name container;
                               ret (Some name))
                 items;
      container_names ←ₛ alloc (StrSet (list_to_set names));
      match specified_container with
      | Some (String _ _ as specified_container) =>
          members ←ₛ load_set container_names;
          if bool_decide (specified_container ∉ members) then
            available ←ₛ sorted_set order container_names;
            listing ←ₛ join ", " available;
            raise (ValueError
              ("Container '" ++ specified_container ++ "' not found in task. "
               ++ "Available containers: " ++ listing))
          else ret specified_container
      | _ =>
          items ←ₛ load_list containers;
          match items with
          | [] => raise (ValueError "No containers found in task")
          | [container] => container_name container
          | _ =>
              (* task_definition.get("containerDefinitions", []) *)
              empty ←ₛ alloc (DictList []);
              definition_dict ←ₛ load task_definition;
              match definition_dict with
              | TaskDefinitionDict _ definition_containers =>
                  let container_definitions :=
                    default empty definition_containers in
                  items ←ₛ load_list container_definitions;
                  names ←ₛ comprehension (essential_name container_names)
                             items;
                  essential_containers ←ₛ alloc (StrSet (list_to_set names));
                  members ←ₛ load_set essential_containers;
                  if (size members =? 1)%nat then
                    match iter order members with
                    | first :: _ => ret first
                    | [] => raise StopIteration
                    end
                  else
                    available ←ₛ sorted_set order container_names;
                    listing ←ₛ join ", " available;
                    raise (ValueError
                      ("Container name must be specified with -c because "
                       ++ "it cannot be automatically determined. "
                       ++ "Available containers: " ++ listing))
              | _ => untyped
              end
          end
      end
  | _ => untyped
  end.

End container_selector.

(** [task["taskArn"].split("/")[-1]] *)
Definition task_ident (task : loc) : run string :=
  o ←ₛ load task;
  match o with
  | TaskDict taskArn _ _ _ =>
      ret (List.last (Str.split "/" taskArn) EmptyString)
  | _ => untyped
  end.

(** The [for] loop of [find_task]: the first task with the identifier, if
    there is one. *)
Fixpoint scan (task_id : string) (items : list loc) : run (option loc) :=
  match items with
  | [] => ret None
  | task :: items =>
      ident ←ₛ task_ident task;
      if String.eqb ident task_id then ret (Some task)
      else scan task_id items
  end.

(** [max(iterable, key=...)] with a key function that reads the store. *)
Fixpoint max_loop {K : Type} (gt : K → K → result bool) (key : loc → run K)
    (maxitem : loc) (maxval : K) (it : list loc) : run loc :=
  match it with
  | [] => ret maxitem
  | item :: it' =>
      val ←ₛ key item;
      match gt val maxval with
      | Return true => max_loop gt key item val it'
      | Return false => max_loop gt key maxitem maxval it'
      | Raise e => raise e
      end
  end.

Definition py_max {K : Type} (gt : K → K → result bool) (key : loc → run K)
    (iterable : loc) : run loc :=
  items ←ₛ load_list iterable;
  match items with
  | [] => raise (ValueError "max() arg is an empty sequence")
  | item :: it =>
      maxval ←ₛ key item;
      max_loop gt key item maxval it
  end.

Section task_selector.
Variable fromisoformat : string → option datetime.t.

Definition get_start_time (task : loc) : run datetime.t :=
  o ←ₛ load task;
  match o with
  | TaskDict _ _ started_at _ =>
      match started_at with
      | None | Some VNone => ret datetime.min
      | Some (VDatetime started_at) => ret started_at
      | Some (VStr started_at) =>
          let started_at :=
            if Str.endswith started_at "Z"
            then Str.replace "Z" "+00:00" started_at
            else started_at in
          match fromisoformat started_at with
          | Some d => ret d
          | None => ret datetime.min
          end
      | Some _ => ret datetime.min
      end
  | _ => untyped
  end.

Definition find_task (tasks : loc) (task_id : option string) : run loc :=
  items ←ₛ load_list tasks;
  match items with
  | [] => raise (ValueError "No running tasks found")
  | _ =>
      match task_id with
      | Some (String _ _ as task_id) =>
          items ←ₛ load_list tasks;
          found ←ₛ scan task_id items;
          match found with
          | Some task => ret task
          | None =>
              (* task_ids = [t["taskArn"].split("/")[-1] for t in tasks] *)
              items ←ₛ load_list tasks;
              idents ←ₛ comprehension
                          (λ t, ident ←ₛ task_ident t; ret (Some ident))
                          items;
              task_ids ←ₛ alloc (StrList idents);
              available ←ₛ sorted_list task_ids;
              listing ←ₛ join ", " available;
              raise (ValueError
                ("Task '" ++ task_id ++ "' not found. Available tasks: "
                 ++ listing))
          end
      | _ => py_max datetime.gt get_start_time tasks
      end
  end.

End task_selector.

(** What a place of the store stands for: the dictionaries and lists that
    can be reached from it, as values.  Two places, in one store or in
    two, hold equal data when they stand for the same value. *)

Definition container_at (h : t) (l : loc) : option Container.t :=
  match h !! l with
  | Some (ContainerDict name lastStatus) =>
      Some (Container.make name lastStatus)
  | _ => None
  end.

Definition container_definition_at (h : t) (l : loc)
  : option ContainerDefinition.t :=
  match h !! l with
  | Some (ContainerDefinitionDict name essential) =>
      Some (ContainerDefinition.make name essential)
  | _ => None
  end.

Definition list_at {A} (item_at : loc → option A) (h : t) (l : loc)
  : option (list A) :=
  match h !! l with
  | Some (DictList items) => mapM item_at items
  | _ => None
  end.

(** What sits under a key that may be missing. *)
Definition optional_list_at {A} (item_at : loc → option A) (h : t)
    (l : option loc) : option (option (list A)) :=
  match l with
  | Some l => Some <$> list_at item_at h l
  | None => Some None
  end.

Definition task_at (h : t) (l : loc) : option Task.t :=
  match h !! l with
  | Some (TaskDict taskArn taskDefinitionArn startedAt containers) =>
      Task.make taskArn taskDefinitionArn startedAt
        <$> optional_list_at (container_at h) h containers
  | _ => None
  end.

Definition task_definition_at (h : t) (l : loc) : option TaskDefinition.t :=
  match h !! l with
  | Some (TaskDefinitionDict taskDefinitionArn containerDefinitions) =>
      TaskDefinition.make taskDefinitionArn
        <$> optional_list_at (container_definition_at h) h containerDefinitions
  | _ => None
  end.

Definition tasks_at (h : t) (l : loc) : option (list Task.t) :=
  list_at (task_at h) h l.

(** The result of a run of [find_task], with the task that is returned
    read from the store the run leaves behind. *)
Definition selected_task (ended : t * option (result loc))
  : option (result Task.t) :=
  match ended with
  | (h, Some (Return task)) => Return <$> task_at h task
  | (_, Some (Raise e)) => Some (Raise e)
  | (_, None) => None
  end.

(** A run that leaves every object of the store it starts from where it
    is and as it is. *)
Definition keeps {A} (m : run A) : Prop := ∀ h, h ⊆ (m h).1.

End Store.

(** ** Sample stores

    The sample tasks and the sample task definition laid out in a store,
    and the same data once more in a store in which the objects sit at
    other places and in another order, and in which the two tasks of the
    list are preceded by objects that no argument reaches. *)

Definition sample_store : Store.t :=
  list_to_map
    [(1%positive, Store.ContainerDict "web" "RUNNING");
     (2%positive, Store.ContainerDict "sidecar" "RUNNING");
     (3%positive, Store.DictList [1%positive; 2%positive]);
     (4%positive,
       Store.TaskDict "arn:aws:ecs:eu-west-1:111122223333:task/prod/0a1b2c"
         "app:7" None (Some 3%positive));
     (5%positive, Store.ContainerDefinitionDict "web" (Some true));
     (6%positive, Store.ContainerDefinitionDict "sidecar" (Some false));
     (7%positive, Store.ContainerDefinitionDict "migrate" (Some true));
     (8%positive, Store.DictList [5%positive; 6%positive; 7%positive]);
     (9%positive, Store.TaskDefinitionDict "app:7" (Some 8%positive));
     (10%positive,
       Store.TaskDict "arn:aws:ecs:eu-west-1:111122223333:task/prod/A"
         "app:7" None None);
     (11%positive,
       Store.TaskDict "arn:aws:ecs:eu-west-1:111122223333:task/prod/B"
         "app:7" (Some (VStr "2024-01-01T00:00:00Z")) None);
     (12%positive, Store.DictList [10%positive; 11%positive])].

Definition other_store : Store.t :=
  list_to_map
    [(1%positive, Store.StrSet {["web"]});
     (2%positive, Store.DictList [20%positive; 7%positive]);
     (7%positive,
       Store.TaskDict "arn:aws:ecs:eu-west-1:111122223333:task/prod/B"
         "app:7" (Some (VStr "2024-01-01T00:00:00Z")) None);
     (20%positive,
       Store.TaskDict "arn:aws:ecs:eu-west-1:111122223333:task/prod/A"
         "app:7" None None);
     (30%positive, Store.TaskDefinitionDict "app:7" (Some 31%positive));
     (31%positive, Store.DictList [34%positive; 33%positive; 32%positive]);
     (32%positive, Store.ContainerDefinitionDict "migrate" (Some true));
     (33%positive, Store.ContainerDefinitionDict "sidecar" (Some false));
     (34%positive, Store.ContainerDefinitionDict "web" (Some true));
     (40%positive,
       Store.TaskDict "arn:aws:ecs:eu-west-1:111122223333:task/prod/0a1b2c"
         "app:7" None (Some 41%positive));
     (41%positive, Store.DictList [43%positive; 42%positive]);
     (42%positive, Store.ContainerDict "sidecar" "RUNNING");
     (43%positive, Store.ContainerDict "web" "RUNNING")].

(** * Properties *)

(** ** Strings and sets *)

Lemma split_not_nil sep s : Str.split sep s ≠ [].
Proof.
  destruct s as [|c s]; simpl; [done|].
  destruct (Ascii.eqb c sep); [done|].
  by destruct (Str.split sep s).
Qed.

Lemma split_without sep s :
  count_char sep s = 0%nat → Str.split sep s = [s].
Proof.
  induction s as [|c s IH]; [done|]. simpl.
  destruct (Ascii.eqb c sep); [done|]. intros H. by rewrite IH.
Qed.

(** Splitting at a separator: the segments before it, then those after. *)
Lemma split_app sep (s1 s2 : string) :
  Str.split sep (s1 ++ String sep s2)
  = (Str.split sep s1 ++ Str.split sep s2)%list.
Proof.
  induction s1 as [|c s1 IH].
  - change (EmptyString ++ String sep s2) with (String sep s2). simpl.
    by rewrite Ascii.eqb_refl.
  - change (String c s1 ++ String sep s2) with (String c (s1 ++ String sep s2)).
    simpl. rewrite IH. destruct (Ascii.eqb c sep); [done|].
    pose proof (split_not_nil sep s1). by destruct (Str.split sep s1).
Qed.

(** The identifier of a task is what follows the last slash of its ARN. *)
Lemma task_ident_last_segment prefix ident definition started containers :
  count_char "/" ident = 0%nat →
  task_ident
    (Task.make (prefix ++ String "/" ident) definition started containers)
  = ident.
Proof.
  intros Hident. unfold task_ident. simpl.
  rewrite split_app, (split_without _ ident Hident).
  by rewrite List.last_last.
Qed.

Lemma append_assoc (a b c : string) : (a ++ b) ++ c = a ++ b ++ c.
Proof.
  induction a as [|x a IH]; [done|].
  change (String x ((a ++ b) ++ c) = String x (a ++ b ++ c)).
  by rewrite IH.
Qed.

Lemma sorted_Sorted l : Sorted String.le (Str.sorted l).
Proof. apply (Sorted_merge_sort String.le). Qed.

Lemma sorted_Permutation l : Str.sorted l ≡ₚ l.
Proof. apply (merge_sort_Permutation String.le). Qed.

(** Sorting forgets the order in which the items arrived. *)
Lemma sorted_perm_eq l1 l2 : l1 ≡ₚ l2 → Str.sorted l1 = Str.sorted l2.
Proof.
  intros Hp. apply (Sorted_unique String.le); auto using sorted_Sorted.
  by rewrite !sorted_Permutation.
Qed.

Lemma sorted_iter (order : set_order) (s : gset string) :
  Str.sorted (iter order s) = Str.sorted (elements s).
Proof. apply sorted_perm_eq, iter_perm. Qed.

Lemma sorted_iter_listing (order : set_order) (s : gset string) :
  sorted_listing s (Str.sorted (iter order s)).
Proof.
  split; [apply sorted_Sorted|].
  assert (Hp : Str.sorted (iter order s) ≡ₚ elements s)
    by (rewrite sorted_Permutation; apply iter_perm).
  split.
  - rewrite Hp. apply NoDup_elements.
  - intros x. rewrite Hp. apply elem_of_elements.
Qed.

Lemma sorted_listing_unique s l1 l2 :
  sorted_listing s l1 → sorted_listing s l2 → l1 = l2.
Proof.
  intros (Hs1 & Hn1 & Hm1) (Hs2 & Hn2 & Hm2).
  apply (Sorted_unique String.le); [done..|].
  apply NoDup_Permutation; [done..|].
  intros x. by rewrite Hm1, Hm2.
Qed.

Lemma iter_singleton (order : set_order) (x : string) :
  iter order {[x]} = [x].
Proof.
  apply Permutation_singleton_r.
  rewrite iter_perm. by rewrite elements_singleton.
Qed.

Lemma size_list_to_set_le (l : list string) :
  (size (list_to_set l : gset string) ≤ length l)%nat.
Proof.
  induction l as [|x l IH].
  - rewrite list_to_set_nil, size_empty. simpl. lia.
  - rewrite list_to_set_cons, size_union_alt, size_singleton.
    assert (size (list_to_set l ∖ {[x]} : gset string)
            ≤ size (list_to_set l : gset string))%nat
      by (apply subseteq_size; set_solver).
    simpl. lia.
Qed.

Lemma elem_of_container_names task n :
  n ∈ container_names task ↔
  ∃ c, c ∈ task_containers task ∧ Container.name c = n.
Proof.
  unfold container_names. rewrite elem_of_list_to_set, list_elem_of_fmap.
  naive_solver.
Qed.

Lemma elem_of_essential_containers task task_definition n :
  n ∈ essential_containers task task_definition ↔
  n ∈ container_names task ∧
  ∃ d, d ∈ container_definitions task_definition
       ∧ ContainerDefinition.name d = n
       ∧ ContainerDefinition.essential d = Some true.
Proof.
  unfold essential_containers.
  rewrite elem_of_list_to_set, list_elem_of_fmap.
  setoid_rewrite list_elem_of_filter. unfold is_essential.
  split.
  - intros (d & -> & (He & Hin) & Hd). split; [done|].
    exists d. repeat split; [done|].
    destruct (ContainerDefinition.essential d) as [[]|]; naive_solver.
  - intros (Hin & d & Hd & <- & He). exists d. rewrite He. naive_solver.
Qed.

(** ** The container selector *)

(** The branch taken when no name is asked for and the task has two
    containers or more. *)
Lemma find_container_name_many order task task_definition :
  (2 ≤ length (task_containers task))%nat →
  find_container_name order task task_definition None =
  let essential := essential_containers task task_definition in
  if (size essential =? 1)%nat then
    match iter order essential with
    | first :: _ => Return first
    | [] => Raise StopIteration
    end
  else
    Raise (ValueError
      ("Container name must be specified with -c because it cannot be "
       ++ "automatically determined. Available containers: "
       ++ Str.join ", " (Str.sorted (iter order (container_names task))))).
Proof.
  intros Hlen. unfold find_container_name.
  destruct (task_containers task) as [|c1 [|c2 l]]; simpl in Hlen; [lia..|].
  reflexivity.
Qed.

(** C4: with no name asked for and at least two names in the running task,
    the candidates are the names that some container definition flags
    essential and that the running task has.  Exactly one candidate is
    returned; none or several give the "must be specified" error, which
    lists the names of the running task in sorted order. *)
Theorem find_container_name_essential order task task_definition :
  (2 ≤ size (container_names task))%nat →
  let essential := essential_containers task task_definition in
  (∀ n, n ∈ essential ↔
        n ∈ container_names task ∧
        ∃ d, d ∈ container_definitions task_definition
             ∧ ContainerDefinition.name d = n
             ∧ ContainerDefinition.essential d = Some true)
  ∧ (∀ n, essential = {[n]} →
          find_container_name order task task_definition None = Return n)
  ∧ (size essential ≠ 1%nat →
     ∃ available,
       sorted_listing (container_names task) available
       ∧ find_container_name order task task_definition None =
         Raise (ValueError
           ("Container name must be specified with -c because it cannot be "
            ++ "automatically determined. Available containers: "
            ++ Str.join ", " available))).
Proof.
  intros Hsize essential.
  assert (Hlen : (2 ≤ length (task_containers task))%nat).
  { etrans; [exact Hsize|]. unfold container_names.
    etrans; [apply size_list_to_set_le|]. by rewrite length_fmap. }
  split; [apply elem_of_essential_containers|].
  rewrite (find_container_name_many order _ _ Hlen). fold essential. simpl.
  split.
  - intros n ->. by rewrite size_singleton, iter_singleton.
  - intros Hne. apply Nat.eqb_neq in Hne. rewrite Hne.
    eexists. split; [apply (sorted_iter_listing order)|done].
Qed.

Lemma find_container_name_essential_witness :
  find_container_name reversed_order web_sidecar (app_definition true false) None
    = Return "web"
  ∧ ∃ available,
      sorted_listing (container_names web_sidecar) available
      ∧ find_container_name reversed_order web_sidecar
          (app_definition true true) None =
        Raise (ValueError
          ("Container name must be specified with -c because it cannot be "
           ++ "automatically determined. Available containers: "
           ++ Str.join ", " available)).
Proof.
  assert (Hsize : (2 ≤ size (container_names web_sidecar))%nat)
    by (vm_compute; lia).
  split.
  - apply (find_container_name_essential reversed_order web_sidecar
             (app_definition true false) Hsize).
    by vm_compute.
  - apply (find_container_name_essential reversed_order web_sidecar
             (app_definition true true) Hsize).
    by vm_compute.
Defined.

(** C5, as amended: a requested name that is not the empty string is
    returned unchanged when the running task has a container of that name,
    whatever the task definition says; otherwise the "not found" error
    carries the requested name and the sorted names of the running task. *)
Theorem find_container_name_specified order task task_definition name :
  name ≠ EmptyString →
  (name ∈ container_names task →
   find_container_name order task task_definition (Some name) = Return name)
  ∧ (name ∉ container_names task →
     ∃ available,
       sorted_listing (container_names task) available
       ∧ find_container_name order task task_definition (Some name) =
         Raise (ValueError
           ("Container '" ++ name ++ "' not found in task. "
            ++ "Available containers: " ++ Str.join ", " available))).
Proof.
  intros Hname. destruct name as [|c name]; [done|].
  unfold find_container_name. split; intros Hin.
  - rewrite bool_decide_false; [done|]. by intros [].
  - rewrite bool_decide_true by done.
    eexists. split; [apply (sorted_iter_listing order)|done].
Qed.

Lemma find_container_name_specified_witness :
  find_container_name elements_order web_sidecar (app_definition true false)
    (Some "sidecar") = Return "sidecar"
  ∧ ∃ available,
      sorted_listing (container_names web_sidecar) available
      ∧ find_container_name elements_order web_sidecar
          (app_definition true false) (Some "migrate") =
        Raise (ValueError
          ("Container '" ++ "migrate" ++ "' not found in task. "
           ++ "Available containers: " ++ Str.join ", " available)).
Proof.
  split.
  - apply (find_container_name_specified elements_order web_sidecar
             (app_definition true false) "sidecar"); [done|].
    by vm_compute.
  - apply (find_container_name_specified elements_order web_sidecar
             (app_definition true false) "migrate"); [done|].
    by vm_compute.
Defined.

(** C5 as stated fails for the empty name: it is no member of the task's
    names, and yet the selector answers with the task's only container. *)
Lemma find_container_name_empty_name_returns :
  (EmptyString ∉ container_names web_only)
  ∧ find_container_name elements_order web_only (app_definition true false)
      (Some EmptyString) = Return "web"
  ∧ ¬ (∃ e, find_container_name elements_order web_only
              (app_definition true false) (Some EmptyString) = Raise e).
Proof. split; [by vm_compute|]. split; [reflexivity|]. by intros [e He]. Qed.

(** C7: with no name asked for and names unique within the task, a task
    without containers gives the "no containers" error and a task with one
    container gives that container's name; the task definition is not
    looked at. *)
Theorem find_container_name_zero_or_one order task task_definition :
  NoDup (Container.name <$> task_containers task) →
  (container_names task = ∅ →
   find_container_name order task task_definition None =
   Raise (ValueError "No containers found in task"))
  ∧ (∀ n, container_names task = {[n]} →
          find_container_name order task task_definition None = Return n).
Proof.
  intros Hnd. unfold find_container_name, container_names in *.
  destruct (task_containers task) as [|c1 [|c2 l]]; simpl in *.
  - split; [done|]. intros n Hn.
    assert (n ∈ (∅ : gset string)) by (rewrite Hn; set_solver).
    set_solver.
  - split.
    + intros He. assert (Container.name c1 ∈ (∅ : gset string))
        by (rewrite <- He; set_solver).
      set_solver.
    + intros n Hn. f_equal.
      assert (Container.name c1 ∈ ({[n]} : gset string))
        by (rewrite <- Hn; set_solver).
      set_solver.
  - apply NoDup_cons in Hnd as [Hnot _]. split.
    + intros He. assert (Container.name c1 ∈ (∅ : gset string))
        by (rewrite <- He; set_solver).
      set_solver.
    + intros n Hn. exfalso. apply Hnot.
      assert (Container.name c1 ∈ ({[n]} : gset string))
        by (rewrite <- Hn; set_solver).
      assert (Container.name c2 ∈ ({[n]} : gset string))
        by (rewrite <- Hn; set_solver).
      set_solver.
Qed.

Lemma find_container_name_zero_or_one_witness :
  find_container_name reversed_order no_containers (app_definition true true)
    None = Raise (ValueError "No containers found in task")
  ∧ find_container_name reversed_order web_only (app_definition false true)
      None = Return "web".
Proof.
  split.
  - apply (find_container_name_zero_or_one reversed_order no_containers
             (app_definition true true)); [apply NoDup_nil_2|by vm_compute].
  - apply (find_container_name_zero_or_one reversed_order web_only
             (app_definition false true));
      [apply NoDup_singleton|by vm_compute].
Defined.

(** ** The task selector: a requested identifier *)

(** C8: on an empty sequence the selector raises "No running tasks found",
    with or without a requested identifier; it returns no task. *)
Theorem find_task_no_tasks fromisoformat task_id :
  find_task fromisoformat [] task_id =
  Raise (ValueError "No running tasks found").
Proof. reflexivity. Qed.

Lemma find_first_match {A} (p : A → bool) before x after :
  p x = true → Forall (λ y, p y = false) before →
  List.find p (before ++ x :: after)%list = Some x.
Proof.
  intros Hx. induction 1 as [|y before Hy _ IH]; simpl.
  - by rewrite Hx.
  - by rewrite Hy.
Qed.

Lemma find_no_match {A} (p : A → bool) l :
  Forall (λ y, p y = false) l → List.find p l = None.
Proof.
  induction 1 as [|y l Hy _ IH]; simpl; [done|]. by rewrite Hy.
Qed.

(** C6, as amended: for a requested identifier that is not the empty string
    the selector returns the first task of the sequence whose identifier is
    the requested one; when there is none it raises [ValueError] with a
    message that ends in the identifiers of all the tasks, sorted and
    joined (for a non-empty sequence the message is "Task '<id>' not found.
    Available tasks: " followed by that list). *)
Theorem find_task_requested fromisoformat tasks task_id :
  task_id ≠ EmptyString →
  (∀ (before : list Task.t) task after,
     tasks = (before ++ task :: after)%list →
     task_ident task = task_id →
     Forall (λ t, task_ident t ≠ task_id) before →
     find_task fromisoformat tasks (Some task_id) = Return task)
  ∧ (Forall (λ t, task_ident t ≠ task_id) tasks →
     ∃ prefix available,
       Sorted String.le available
       ∧ available ≡ₚ task_ident <$> tasks
       ∧ find_task fromisoformat tasks (Some task_id) =
         Raise (ValueError (prefix ++ Str.join ", " available))
       ∧ (tasks ≠ [] →
          prefix = "Task '" ++ task_id ++ "' not found. Available tasks: ")).
Proof.
  intros Hid. destruct task_id as [|c task_id]; [done|]. clear Hid.
  split.
  - intros before task after -> Hmatch Hbefore.
    unfold find_task.
    rewrite (find_first_match _ before task after).
    + by destruct before.
    + by apply String.eqb_eq.
    + eapply Forall_impl; [exact Hbefore|].
      intros t. apply String.eqb_neq.
  - intros Hnone. destruct tasks as [|task tasks].
    + exists "No running tasks found", []. by repeat split.
    + eexists _, (Str.sorted (task_ident <$> task :: tasks)).
      split; [apply sorted_Sorted|]. split; [apply sorted_Permutation|].
      split; [|done]. unfold find_task.
      rewrite find_no_match; [by rewrite !append_assoc|].
      eapply Forall_impl; [exact Hnone|].
      intros t. apply String.eqb_neq.
Qed.

Lemma find_task_requested_witness :
  find_task iso.fromisoformat [task_A; task_B] (Some "B") = Return task_B
  ∧ ∃ prefix available,
      Sorted String.le available
      ∧ available ≡ₚ task_ident <$> [task_A; task_B]
      ∧ find_task iso.fromisoformat [task_A; task_B] (Some "b") =
        Raise (ValueError (prefix ++ Str.join ", " available))
      ∧ ([task_A; task_B] ≠ [] →
         prefix = "Task '" ++ "b" ++ "' not found. Available tasks: ").
Proof.
  split.
  - apply (proj1 (find_task_requested iso.fromisoformat [task_A; task_B] "B"
                    ltac:(done)) [task_A] task_B []); [reflexivity..|].
    repeat constructor. by vm_compute.
  - apply (proj2 (find_task_requested iso.fromisoformat [task_A; task_B] "b"
                    ltac:(done))).
    repeat constructor; by vm_compute.
Defined.

(** C6 as stated fails for the empty identifier: no task carries it, and
    yet the selector returns a task instead of the "not found" error. *)
Lemma find_task_empty_id_returns :
  Forall (λ t, task_ident t ≠ EmptyString) [task_B]
  ∧ find_task iso.fromisoformat [task_B] (Some EmptyString) = Return task_B
  ∧ ¬ (∃ e, find_task iso.fromisoformat [task_B] (Some EmptyString) = Raise e).
Proof.
  split; [repeat constructor; by vm_compute|].
  split; [reflexivity|]. by intros [e He].
Qed.

(** ** The task selector: the most recent task *)

Lemma gt_mixed a b :
  datetime.is_aware a ≠ datetime.is_aware b →
  datetime.gt a b = Raise naive_aware.
Proof.
  unfold datetime.is_aware, datetime.gt.
  by destruct (datetime.utcoffset a), (datetime.utcoffset b).
Qed.

Lemma gt_alike a b :
  datetime.is_aware a = datetime.is_aware b →
  ∃ r, datetime.gt a b = Return r.
Proof.
  unfold datetime.is_aware, datetime.gt.
  destruct (datetime.utcoffset a) as [oa|], (datetime.utcoffset b) as [ob|];
    try done; [|by eexists].
  intros _. destruct (oa =? ob); by eexists.
Qed.

(** Once the candidate is naive (or aware), [max] cannot get past an item
    of the other kind. *)
Lemma max_loop_mixed {A} (key : A → datetime.t) maxitem maxval it :
  Exists (λ x, datetime.is_aware (key x) ≠ datetime.is_aware maxval) it →
  max_loop datetime.gt key maxitem maxval it = Raise naive_aware.
Proof.
  revert maxitem maxval.
  induction it as [|item it IH]; intros maxitem maxval Hex.
  - by apply Exists_nil in Hex.
  - simpl.
    destruct (decide (datetime.is_aware (key item) = datetime.is_aware maxval))
      as [Hsame|Hdiff].
    + apply Exists_cons in Hex as [Hitem|Hex]; [done|].
      destruct (gt_alike _ _ Hsame) as [[] ->].
      * apply IH. by rewrite Hsame.
      * by apply IH.
    + by rewrite gt_mixed.
Qed.

Section most_recent.
Variable fromisoformat : string → option datetime.t.
Local Abbreviation key := (get_start_time fromisoformat).

(** Whenever the keys of a sequence are not all naive or all aware, picking
    the most recent task ends in a [TypeError]. *)
Lemma find_task_mixed_raises tasks naive aware :
  naive ∈ tasks → datetime.is_aware (key naive) = false →
  aware ∈ tasks → datetime.is_aware (key aware) = true →
  find_task fromisoformat tasks None = Raise naive_aware.
Proof.
  intros Hn Hkn Ha Hka.
  destruct tasks as [|first tasks]; [by apply elem_of_nil in Hn|].
  simpl. apply max_loop_mixed, Exists_exists.
  destruct (datetime.is_aware (key first)) eqn:Hfirst.
  - exists naive. split; [|congruence].
    apply elem_of_cons in Hn as [->|]; [congruence|done].
  - exists aware. split; [|congruence].
    apply elem_of_cons in Ha as [->|]; [congruence|done].
Qed.

(** A task without ["startedAt"] gets the naive [datetime.min]. *)
Lemma get_start_time_absent task :
  Task.startedAt task = None → key task = datetime.min.
Proof. unfold get_start_time. by intros ->. Qed.

(** In particular a sequence with a task that has no start time and a task
    whose start time is text that parses to an aware datetime is never
    resolved. *)
Lemma find_task_absent_and_aware_raises tasks pending started :
  pending ∈ tasks → Task.startedAt pending = None →
  started ∈ tasks → datetime.is_aware (key started) = true →
  find_task fromisoformat tasks None = Raise naive_aware.
Proof.
  intros Hp Hnone Hs Haware.
  apply (find_task_mixed_raises tasks pending started); try done.
  by rewrite get_start_time_absent.
Qed.

End most_recent.

(** C1: on the sequence of the example -- task A without a start time, task
    B started at "2024-01-01T00:00:00Z" -- the selector does not return B:
    the key of A is the naive [datetime.min], the key of B is an aware
    datetime, and comparing them raises [TypeError]. *)
Theorem find_task_absent_then_utc_text :
  get_start_time iso.fromisoformat task_A = datetime.min
  ∧ get_start_time iso.fromisoformat task_B
    = datetime.make 2024 1 1 0 0 0 0 (Some 0)
  ∧ find_task iso.fromisoformat [task_A; task_B] None = Raise naive_aware.
Proof. by vm_compute. Qed.

(** C2: on a sequence of a running task, whose start time is the aware
    datetime the API client delivers, followed by a task that has not
    started yet, the selector returns no task at all: it raises
    [TypeError]. *)
Theorem find_task_running_then_pending :
  find_task iso.fromisoformat [task_running; task_pending] None
  = Raise naive_aware.
Proof. reflexivity. Qed.

(** *** When every comparison succeeds

    [max] with a comparison that always answers, and that is the strict
    part of a total preorder, returns the first of the greatest items. *)

Section max_first.
Context {A K : Type} (gt : K → K → result bool) (gtb : K → K → bool).
Context (key : A → K) (ok : K → Prop).
Hypothesis gt_ok : ∀ a b, ok a → ok b → gt a b = Return (gtb a b).
Hypothesis gtb_trans :
  ∀ a b c, gtb a b = true → gtb b c = true → gtb a c = true.
Hypothesis gtb_neg_trans :
  ∀ a b c, gtb a b = false → gtb b c = false → gtb a c = false.

Lemma max_loop_first_max it : ∀ before maxitem after,
  Forall (λ x, ok (key x)) (before ++ maxitem :: after ++ it)%list →
  Forall (λ x, gtb (key maxitem) (key x) = true) before →
  Forall (λ x, gtb (key x) (key maxitem) = false) after →
  ∃ before' m after',
    first_max gtb key (before ++ maxitem :: after ++ it)%list before' m after'
    ∧ max_loop gt key maxitem (key maxitem) it = Return m.
Proof.
  induction it as [|item it IH]; intros before maxitem after Hok Hb Ha.
  - exists before, maxitem, after. rewrite app_nil_r. by repeat split.
  - simpl.
    assert (Hmax : ok (key maxitem)).
    { apply Forall_app in Hok as [_ Hok]. by apply Forall_cons in Hok as [? _]. }
    assert (Hitem : ok (key item)).
    { apply Forall_app in Hok as [_ Hok]. apply Forall_cons in Hok as [_ Hok].
      apply Forall_app in Hok as [_ Hok]. by apply Forall_cons in Hok as [? _]. }
    rewrite (gt_ok _ _ Hitem Hmax).
    destruct (gtb (key item) (key maxitem)) eqn:Hgt.
    + destruct (IH (before ++ maxitem :: after)%list item []) as
        (before' & m & after' & Hfm & Hres).
      * simpl. by rewrite <- app_assoc.
      * apply Forall_app. split; [|apply Forall_cons; split; [done|]].
        -- eapply Forall_impl; [exact Hb|]. intros x Hx. by eapply gtb_trans.
        -- eapply Forall_impl; [exact Ha|]. intros x Hx.
           destruct (gtb (key item) (key x)) eqn:Hix; [done|].
           by rewrite (gtb_neg_trans _ _ _ Hix Hx) in Hgt.
      * constructor.
      * exists before', m, after'. split; [|done].
        simpl in Hfm. by rewrite <- app_assoc in Hfm.
    + destruct (IH before maxitem (after ++ [item])%list) as
        (before' & m & after' & Hfm & Hres).
      * by rewrite <- (app_assoc after).
      * done.
      * apply Forall_app. split; [done|]. by repeat constructor.
      * exists before', m, after'. split; [|done].
        by rewrite <- (app_assoc after) in Hfm.
Qed.

Lemma py_max_first_max l :
  l ≠ [] → Forall (λ x, ok (key x)) l →
  ∃ before m after,
    first_max gtb key l before m after ∧ py_max gt key l = Return m.
Proof.
  destruct l as [|x l]; [done|]. intros _ Hok.
  apply (max_loop_first_max l [] x []); [done|constructor..].
Qed.

End max_first.

Lemma Z_compare_trans (x y z : Z) c :
  (x ?= y) = c → (y ?= z) = c → (x ?= z) = c.
Proof.
  destruct c; rewrite ?Z.compare_eq_iff, ?Z.compare_lt_iff, ?Z.compare_gt_iff;
    lia.
Qed.

Lemma cmp_fields_opp a b :
  datetime.cmp_fields b a = CompOpp (datetime.cmp_fields a b).
Proof.
  apply list_compare_antisym; [apply Z.compare_eq_iff|apply Z.compare_antisym].
Qed.

Lemma cmp_fields_trans a b c r :
  datetime.cmp_fields a b = r → datetime.cmp_fields b c = r →
  datetime.cmp_fields a c = r.
Proof.
  apply list_compare_trans;
    [apply Z.compare_eq_iff|apply Z_compare_trans|apply Z.compare_antisym].
Qed.

Lemma cmp_fields_eq a b :
  datetime.cmp_fields a b = Eq → datetime.fields a = datetime.fields b.
Proof. apply list_compare_refl, Z.compare_eq_iff. Qed.

Lemma later_trans a b c :
  later a b = true → later b c = true → later a c = true.
Proof.
  unfold later. rewrite !bool_decide_eq_true. apply cmp_fields_trans.
Qed.

Lemma later_neg_trans a b c :
  later a b = false → later b c = false → later a c = false.
Proof.
  unfold later. rewrite !bool_decide_eq_false. unfold datetime.cmp_fields.
  intros Hab Hbc.
  destruct (datetime.cmp_fields a b) eqn:Eab; [| |done].
  - apply cmp_fields_eq in Eab. unfold datetime.cmp_fields. by rewrite Eab.
  - destruct (datetime.cmp_fields b c) eqn:Ebc; [| |done].
    + apply cmp_fields_eq in Ebc. unfold datetime.cmp_fields in *.
      rewrite <- Ebc. by rewrite Eab.
    + fold (datetime.cmp_fields a c).
      by rewrite (cmp_fields_trans a b c Lt Eab Ebc).
Qed.

Lemma gt_same_offset o a b :
  datetime.utcoffset a = o → datetime.utcoffset b = o →
  datetime.gt a b = Return (later a b).
Proof.
  unfold datetime.gt. intros -> ->.
  destruct o as [o|]; [|done]. by rewrite Z.eqb_refl.
Qed.

Section most_recent_same_offset.
Variable fromisoformat : string → option datetime.t.
Local Abbreviation key := (get_start_time fromisoformat).

(** When the keys of all tasks carry the same offset (all naive, or all in
    one time zone) the selector returns the first of the tasks with the
    greatest key: the tasks before it have a smaller key, the tasks after
    it have no greater key. *)
Lemma find_task_same_offset tasks o :
  tasks ≠ [] →
  Forall (λ t, datetime.utcoffset (key t) = o) tasks →
  ∃ before task after,
    tasks = (before ++ task :: after)%list
    ∧ find_task fromisoformat tasks None = Return task
    ∧ Forall (λ t, datetime.cmp_fields (key task) (key t) = Gt) before
    ∧ Forall (λ t, datetime.cmp_fields (key t) (key task) ≠ Gt) after.
Proof.
  intros Hne Hall.
  destruct (py_max_first_max datetime.gt later key
              (λ d, datetime.utcoffset d = o)
              (gt_same_offset o) later_trans later_neg_trans tasks Hne Hall)
    as (before & task & after & (-> & Hb & Ha) & Hres).
  exists before, task, after. split; [done|]. split.
  - unfold find_task. by destruct (before ++ task :: after)%list.
  - split; (eapply Forall_impl; [eassumption|]); intros t; unfold later.
    + by rewrite bool_decide_eq_true.
    + by rewrite bool_decide_eq_false.
Qed.

(** When no task has a start time the first task is selected. *)
Lemma find_task_all_absent task tasks :
  Forall (λ t, Task.startedAt t = None) (task :: tasks) →
  find_task fromisoformat (task :: tasks) None = Return task.
Proof.
  intros Hall.
  assert (Hmin : Forall (λ t, key t = datetime.min) (task :: tasks)).
  { eapply Forall_impl; [exact Hall|]. apply get_start_time_absent. }
  destruct (find_task_same_offset (task :: tasks) None) as
    (before & m & after & Heq & Hres & Hb & _); [done| |].
  { eapply Forall_impl; [exact Hmin|]. by intros t ->. }
  destruct before as [|b before]; [by simplify_eq/=|].
  exfalso. apply Forall_cons in Hb as [Hb _].
  assert (Hb' : b ∈ task :: tasks) by (rewrite Heq; set_solver).
  assert (Hm' : m ∈ task :: tasks) by (rewrite Heq; set_solver).
  rewrite Forall_forall in Hmin.
  by rewrite (Hmin _ Hb'), (Hmin _ Hm') in Hb.
Qed.

End most_recent_same_offset.

(** *** Keys that are all naive or all aware

    For datetimes within the ranges of the constructor, the order by fields
    is the order of the wall-clock readings, hence two aware datetimes
    are ordered by the instants they denote whether or not their offsets
    agree. *)

Lemma days_before_year_mono y1 y2 :
  y1 < y2 →
  datetime.days_before_year y1 + 365 + (if datetime.is_leap y1 then 1 else 0)
  ≤ datetime.days_before_year y2.
Proof.
  unfold datetime.days_before_year, datetime.is_leap. intros Hlt.
  destruct (Z.eqb_spec (y1 mod 4) 0), (Z.eqb_spec (y1 mod 100) 0),
    (Z.eqb_spec (y1 mod 400) 0); simpl;
    Z.to_euclidean_division_equations; lia.
Qed.

Lemma month_cases m : 1 ≤ m ≤ 12 →
  m = 1 ∨ m = 2 ∨ m = 3 ∨ m = 4 ∨ m = 5 ∨ m = 6 ∨ m = 7 ∨ m = 8 ∨ m = 9
  ∨ m = 10 ∨ m = 11 ∨ m = 12.
Proof. lia. Qed.

Lemma day_of_year_bounds y m d :
  1 ≤ m ≤ 12 → 1 ≤ d ≤ datetime.days_in_month y m →
  1 ≤ datetime.days_before_month y m + d
    ≤ 365 + (if datetime.is_leap y then 1 else 0).
Proof.
  intros Hm. unfold datetime.days_in_month, datetime.days_before_month.
  destruct (month_cases m Hm)
    as [->|[->|[->|[->|[->|[->|[->|[->|[->|[->|[->| ->]]]]]]]]]]];
    destruct (datetime.is_leap y); simpl; lia.
Qed.

Lemma day_of_year_mono y m1 d1 m2 d2 :
  1 ≤ m1 ≤ 12 → 1 ≤ m2 ≤ 12 → m1 < m2 →
  1 ≤ d1 ≤ datetime.days_in_month y m1 → 1 ≤ d2 →
  datetime.days_before_month y m1 + d1 < datetime.days_before_month y m2 + d2.
Proof.
  intros Hm1 Hm2. unfold datetime.days_in_month, datetime.days_before_month.
  destruct (month_cases m1 Hm1)
    as [->|[->|[->|[->|[->|[->|[->|[->|[->|[->|[->| ->]]]]]]]]]]];
  destruct (month_cases m2 Hm2)
    as [->|[->|[->|[->|[->|[->|[->|[->|[->|[->|[->| ->]]]]]]]]]]];
    intros ?; try lia;
    destruct (datetime.is_leap y); simpl; lia.
Qed.

Lemma cmp_fields_wall a b :
  datetime.valid a → datetime.valid b →
  datetime.cmp_fields a b = (datetime.wall a ?= datetime.wall b).
Proof.
  destruct a as [y1 m1 d1 h1 mi1 s1 u1 o1], b as [y2 m2 d2 h2 mi2 s2 u2 o2].
  unfold datetime.valid, datetime.wall, datetime.cmp_fields,
    datetime.toordinal. simpl.
  intros (Hy1 & Hm1 & Hd1 & Hh1 & Hmi1 & Hs1 & Hu1)
         (Hy2 & Hm2 & Hd2 & Hh2 & Hmi2 & Hs2 & Hu2).
  pose proof (day_of_year_bounds y1 m1 d1 Hm1 Hd1).
  pose proof (day_of_year_bounds y2 m2 d2 Hm2 Hd2).
  symmetry.
  destruct (Z.compare_spec y1 y2) as [->|Hy|Hy].
  - destruct (Z.compare_spec m1 m2) as [->|Hm|Hm].
    + repeat match goal with
             | |- _ = match ?x ?= ?y with _ => _ end =>
                 destruct (Z.compare_spec x y); subst
             end;
        first [apply Z.compare_eq_iff | apply Z.compare_lt_iff
              | apply Z.compare_gt_iff]; lia.
    + pose proof (day_of_year_mono y2 m1 d1 m2 d2 Hm1 Hm2 Hm Hd1 (proj1 Hd2)).
      apply Z.compare_lt_iff; lia.
    + pose proof (day_of_year_mono y2 m2 d2 m1 d1 Hm2 Hm1 Hm Hd2 (proj1 Hd1)).
      apply Z.compare_gt_iff; lia.
  - pose proof (days_before_year_mono y1 y2 Hy). apply Z.compare_lt_iff; lia.
  - pose proof (days_before_year_mono y2 y1 Hy). apply Z.compare_gt_iff; lia.
Qed.

Lemma gt_instant a b :
  datetime.valid a → datetime.valid b →
  datetime.is_aware a = datetime.is_aware b →
  datetime.gt a b = Return (datetime.instant b <? datetime.instant a).
Proof.
  intros Ha Hb. unfold datetime.is_aware, datetime.gt, datetime.instant.
  rewrite (cmp_fields_wall a b Ha Hb).
  destruct (datetime.utcoffset a) as [oa|], (datetime.utcoffset b) as [ob|];
    try done; intros _; simpl.
  - destruct (Z.eqb_spec oa ob) as [->|Hne]; f_equal.
    + case_bool_decide as H; rewrite Z.compare_gt_iff in H;
        destruct (Z.ltb_spec (datetime.wall b - ob) (datetime.wall a - ob));
        (done || lia).
    + unfold datetime.sub_base, datetime.wall.
      repeat match goal with
             | |- context [?x <? ?y] => destruct (Z.ltb_spec x y)
             end; (done || lia).
  - f_equal. case_bool_decide as H; rewrite Z.compare_gt_iff in H;
      destruct (Z.ltb_spec (datetime.wall b - 0) (datetime.wall a - 0));
      (done || lia).
Qed.

Section most_recent_comparable.
Variable fromisoformat : string → option datetime.t.
Local Abbreviation key := (get_start_time fromisoformat).

(** When the keys are within range and all naive, or all aware, the
    selector returns the first of the tasks that started last: the tasks
    before it started earlier, the tasks after it did not start later. *)
Lemma find_task_comparable tasks aware :
  tasks ≠ [] →
  Forall (λ t, datetime.valid (key t) ∧ datetime.is_aware (key t) = aware)
    tasks →
  ∃ before task after,
    tasks = (before ++ task :: after)%list
    ∧ find_task fromisoformat tasks None = Return task
    ∧ Forall (λ t, datetime.instant (key t) < datetime.instant (key task))
        before
    ∧ Forall (λ t, datetime.instant (key t) ≤ datetime.instant (key task))
        after.
Proof.
  intros Hne Hall.
  destruct (py_max_first_max datetime.gt
              (λ a b, datetime.instant b <? datetime.instant a) key
              (λ d, datetime.valid d ∧ datetime.is_aware d = aware))
    with (l := tasks)
    as (before & task & after & (-> & Hb & Ha) & Hres); try done.
  - intros a b [Ha Hka] [Hb Hkb]. apply gt_instant; congruence.
  - intros a b c. rewrite !Z.ltb_lt. lia.
  - intros a b c. rewrite !Z.ltb_ge. lia.
  - exists before, task, after. split; [done|]. split.
    + unfold find_task. by destruct (before ++ task :: after)%list.
    + split; (eapply Forall_impl; [eassumption|]); intros t; simpl.
      * by rewrite Z.ltb_lt.
      * by rewrite Z.ltb_ge.
Qed.

End most_recent_comparable.

(** *** What the parser returns is within range *)

Lemma digits_bounds s : ∀ acc v,
  iso.digits s acc = Some v → 0 ≤ acc →
  acc * 10 ^ Z.of_nat (String.length s) ≤ v
  < (acc + 1) * 10 ^ Z.of_nat (String.length s).
Proof.
  induction s as [|c s IH]; intros acc v Hd Hacc.
  - simpl in *. injection Hd as <-. lia.
  - cbn [iso.digits] in Hd. destruct (iso.is_digit c) eqn:Hc; [|done].
    apply IH in Hd; [|lia].
    assert (Hdig : 0 ≤ Z.of_nat (nat_of_ascii c - 48) ≤ 9).
    { unfold iso.is_digit in Hc. apply andb_prop in Hc as [H1 H2].
      apply Nat.leb_le in H1, H2. lia. }
    cbn [String.length]. rewrite Nat2Z.inj_succ, Z.pow_succ_r by lia.
    assert (0 < 10 ^ Z.of_nat (String.length s))
      by (apply Z.pow_pos_nonneg; lia).
    nia.
Qed.

Lemma field_bounds p n s v :
  iso.field p n s = Some v → 0 ≤ v < 10 ^ Z.of_nat n.
Proof.
  unfold iso.field. destruct (Nat.eqb_spec (String.length (substring p n s)) n)
    as [Hlen|]; [|done].
  intros Hd%digits_bounds; [|done]. rewrite Hlen in Hd. lia.
Qed.

Lemma parse_hh_mm_ss_ff_bounds s h m sec f :
  iso.parse_hh_mm_ss_ff s = Some (h, m, sec, f) →
  0 ≤ h ∧ 0 ≤ m ∧ 0 ≤ sec ∧ 0 ≤ f ≤ 999999.
Proof.
  unfold iso.parse_hh_mm_ss_ff. intros H.
  repeat match type of H with
         | (match ?n with O => _ | S _ => _ end) = _ => destruct n
         | _ => progress simplify_option_eq
         end;
  repeat match goal with
         | H : iso.field _ _ _ = Some _ |- _ => apply field_bounds in H
         end; simpl in *; try lia.
Qed.

Lemma parse_isoformat_time_bounds tstr h m sec f tz :
  iso.parse_isoformat_time tstr = Some (h, m, sec, f, tz) →
  0 ≤ h ≤ 23 ∧ 0 ≤ m ≤ 59 ∧ 0 ≤ sec ≤ 59 ∧ 0 ≤ f ≤ 999999.
Proof.
  unfold iso.parse_isoformat_time. intros H.
  assert (Hclock : ∀ hmsf,
            iso.parse_hh_mm_ss_ff hmsf = Some (h, m, sec, f) →
            iso.in_clock (h, m, sec, f) = true →
            0 ≤ h ≤ 23 ∧ 0 ≤ m ≤ 59 ∧ 0 ≤ sec ≤ 59 ∧ 0 ≤ f ≤ 999999).
  { intros hmsf Hp%parse_hh_mm_ss_ff_bounds Hc. unfold iso.in_clock in Hc.
    apply andb_prop in Hc as [[H1%Z.leb_le H2%Z.leb_le]%andb_prop H3%Z.leb_le].
    lia. }
  destruct (index 0 "-" tstr) as [i|]; [|destruct (index 0 "+" tstr) as [i|]].
  all: destruct (iso.parse_hh_mm_ss_ff _) as [hmsf|] eqn:Hp in H; [|done].
  all: cbn [mbind option_bind] in H.
  all: try (destruct (iso.parse_offset _ _) as [off|] in H; [|done];
            cbn [mbind option_bind] in H).
  all: destruct (iso.in_clock hmsf) eqn:Hc; [|done].
  all: injection H as -> <-; eauto.
Qed.

Lemma fromisoformat_valid s d :
  iso.fromisoformat s = Some d → datetime.valid d.
Proof.
  unfold iso.fromisoformat. intros H.
  destruct (iso.field 0 4 s) as [y|] eqn:Hy; [|done].
  cbn [mbind option_bind] in H.
  destruct (iso.char_at 4 "-" s); [|done]. cbn [mbind option_bind] in H.
  destruct (iso.field 5 2 s) as [mo|] eqn:Hmo; [|done].
  cbn [mbind option_bind] in H.
  destruct (iso.char_at 7 "-" s); [|done]. cbn [mbind option_bind] in H.
  destruct (iso.field 8 2 s) as [dd|] eqn:Hdd; [|done].
  cbn [mbind option_bind] in H.
  destruct (_ && _) eqn:Hrange in H; [|done].
  repeat match goal with
         | H : _ && _ = true |- _ => apply andb_prop in H as [? ?]
         | H : (_ <=? _) = true |- _ => apply Z.leb_le in H
         end.
  destruct (String.length s =? 10)%nat.
  - injection H as <-. unfold datetime.valid. simpl. lia.
  - destruct (iso.parse_isoformat_time _) as [[[[[h mi] sec] us] tz]|] eqn:Ht;
      [|done].
    cbn [mbind option_bind] in H. injection H as <-.
    apply parse_isoformat_time_bounds in Ht.
    unfold datetime.valid. simpl. lia.
Qed.

(** So are the keys, when the datetimes found in the tasks are. *)
Lemma get_start_time_valid task :
  (∀ d, Task.startedAt task = Some (VDatetime d) → datetime.valid d) →
  datetime.valid (get_start_time iso.fromisoformat task).
Proof.
  assert (Hmin : datetime.valid datetime.min)
    by (repeat split; by vm_compute).
  unfold get_start_time. intros Hd.
  destruct (Task.startedAt task) as [[|d|s|]|]; auto.
  destruct (iso.fromisoformat _) eqn:Hp; [|done].
  by apply fromisoformat_valid in Hp.
Qed.

(** ** Normalising the start time *)

Lemma append_cons a (s t : string) : String a s ++ t = String a (s ++ t).
Proof. reflexivity. Qed.

Lemma endswith_char_inv s c :
  Str.endswith s (String c EmptyString) = true →
  ∃ s0, s = s0 ++ String c EmptyString.
Proof.
  unfold Str.endswith.
  induction s as [|a s IH]; [done|].
  destruct s as [|b s].
  - cbn [String.length Nat.leb Nat.sub substring andb].
    intros Heq%String.eqb_eq. exists EmptyString. by rewrite Heq.
  - intros H. destruct IH as [s0 Hs0].
    + revert H. cbn [String.length Nat.leb Nat.sub substring andb].
      by rewrite !Nat.sub_0_r.
    + exists (String a s0). by rewrite append_cons, <- Hs0.
Qed.

Lemma count_char_app c (s t : string) :
  count_char c (s ++ t) = (count_char c s + count_char c t)%nat.
Proof.
  induction s as [|a s IH]; [done|].
  rewrite append_cons. simpl. rewrite IH. lia.
Qed.

Lemma replace_app old new (s t : string) :
  Str.replace old new (s ++ t) = Str.replace old new s ++ Str.replace old new t.
Proof.
  induction s as [|a s IH]; [done|].
  rewrite append_cons. simpl. rewrite IH.
  destruct (Ascii.eqb a old); [by rewrite append_assoc|done].
Qed.

Lemma replace_absent old new s :
  count_char old s = 0%nat → Str.replace old new s = s.
Proof.
  induction s as [|a s IH]; [done|]. simpl.
  destruct (Ascii.eqb a old); [done|]. intros H. by rewrite IH.
Qed.

Lemma substring_all_but_last (s0 : string) c :
  substring 0 (String.length (s0 ++ String c EmptyString) - 1)
    (s0 ++ String c EmptyString) = s0.
Proof.
  induction s0 as [|a s0 IH]; [done|].
  rewrite append_cons. cbn [String.length Nat.sub].
  rewrite Nat.sub_0_r in *.
  destruct (String.length (s0 ++ String c EmptyString)) as [|n] eqn:Hlen.
  - by destruct s0.
  - cbn [substring]. f_equal. rewrite <- IH at 2. f_equal. simpl. lia.
Qed.

(** On text whose only Z is the last character, replacing every Z is
    replacing the trailing one. *)
Lemma replace_single_trailing_z s :
  Str.endswith s "Z" = true → count_char "Z" s = 1%nat →
  Str.replace "Z" "+00:00" s = spec.trailing_z_to_offset s.
Proof.
  intros Hends Hcount. unfold spec.trailing_z_to_offset. rewrite Hends.
  destruct (endswith_char_inv _ _ Hends) as [s0 ->].
  rewrite count_char_app in Hcount. simpl in Hcount.
  rewrite replace_app, substring_all_but_last.
  rewrite replace_absent by lia. done.
Qed.

Section normalisation.
Variable fromisoformat : string → option datetime.t.

(** [get_start_time] never raises, and it is the normalisation of the
    specification for every value other than text that ends in Z and has
    a further Z inside. *)
Lemma get_start_time_normalized task :
  (∀ s, Task.startedAt task = Some (VStr s) →
        Str.endswith s "Z" = true → count_char "Z" s = 1%nat) →
  get_start_time fromisoformat task =
  spec.normalized_start fromisoformat (Task.startedAt task).
Proof.
  unfold get_start_time, spec.normalized_start. intros Hz.
  destruct (Task.startedAt task) as [[| |s|]|]; try done.
  destruct (Str.endswith s "Z") eqn:Hends.
  - by rewrite replace_single_trailing_z by auto.
  - unfold spec.trailing_z_to_offset. by rewrite Hends.
Qed.

End normalisation.

(** C3: on the text "2024-01-01Z00:00:00Z" the script rewrites both Z's,
    the parser rejects the result and the key is [datetime.min]; rewriting
    the trailing Z alone gives text that parses to the aware datetime
    2024-01-01 00:00:00 +00:00. *)
Theorem get_start_time_inner_z :
  Str.replace "Z" "+00:00" "2024-01-01Z00:00:00Z"
    = "2024-01-01+00:0000:00:00+00:00"
  ∧ get_start_time iso.fromisoformat task_inner_z = datetime.min
  ∧ spec.trailing_z_to_offset "2024-01-01Z00:00:00Z"
    = "2024-01-01Z00:00:00+00:00"
  ∧ spec.normalized_start iso.fromisoformat (Task.startedAt task_inner_z)
    = datetime.make 2024 1 1 0 0 0 0 (Some 0).
Proof. by vm_compute. Qed.

(** ** The selectors over a store *)

(** *** Nothing in the store is changed *)

Lemma keeps_ret {A} (a : A) : Store.keeps (Store.ret a).
Proof. by intros h. Qed.

Lemma keeps_raise {A} (e : exn) : Store.keeps (Store.raise (A := A) e).
Proof. by intros h. Qed.

Lemma keeps_untyped {A} : Store.keeps (Store.untyped (A := A)).
Proof. by intros h. Qed.

Lemma keeps_load l : Store.keeps (Store.load l).
Proof. by intros h. Qed.

Lemma keeps_alloc o : Store.keeps (Store.alloc o).
Proof.
  intros h. simpl. apply insert_subseteq, (not_elem_of_dom (D := gset _)).
  apply is_fresh.
Qed.

Lemma keeps_bind {A B} (m : Store.run A) (k : A → Store.run B) :
  Store.keeps m → (∀ a, Store.keeps (k a)) → Store.keeps (Store.bind m k).
Proof.
  intros Hm Hk h. unfold Store.bind. specialize (Hm h).
  destruct (m h) as [h' [[a|e]|]]; simpl in *; [|done..].
  etrans; [exact Hm|apply Hk].
Qed.

Ltac keeps_step :=
  first
    [ apply keeps_ret | apply keeps_raise | apply keeps_untyped
    | apply keeps_load | apply keeps_alloc
    | apply keeps_bind; [|intros ?]
    | match goal with
      | |- Store.keeps (match ?x with _ => _ end) => destruct x
      | |- Store.keeps (if ?x then _ else _) => destruct x
      end ].

Lemma keeps_load_list l : Store.keeps (Store.load_list l).
Proof. unfold Store.load_list. repeat keeps_step. Qed.

Lemma keeps_load_strs l : Store.keeps (Store.load_strs l).
Proof. unfold Store.load_strs. repeat keeps_step. Qed.

Lemma keeps_load_set l : Store.keeps (Store.load_set l).
Proof. unfold Store.load_set. repeat keeps_step. Qed.

Lemma keeps_comprehension {A} (f : Store.loc → Store.run (option A)) items :
  (∀ item, Store.keeps (f item)) → Store.keeps (Store.comprehension f items).
Proof.
  intros Hf. induction items as [|item items IH]; simpl; repeat keeps_step;
    done.
Qed.

Lemma keeps_sorted_set order s : Store.keeps (Store.sorted_set order s).
Proof.
  unfold Store.sorted_set. apply keeps_bind; [apply keeps_load_set|].
  intros members. apply keeps_alloc.
Qed.

Lemma keeps_sorted_list l : Store.keeps (Store.sorted_list l).
Proof.
  unfold Store.sorted_list. apply keeps_bind; [apply keeps_load_strs|].
  intros items. apply keeps_alloc.
Qed.

Lemma keeps_join sep l : Store.keeps (Store.join sep l).
Proof.
  unfold Store.join. apply keeps_bind; [apply keeps_load_strs|].
  intros items. apply keeps_ret.
Qed.

Lemma keeps_container_name container :
  Store.keeps (Store.container_name container).
Proof. unfold Store.container_name. repeat keeps_step. Qed.

Lemma keeps_essential_name container_names container_def :
  Store.keeps (Store.essential_name container_names container_def).
Proof.
  unfold Store.essential_name.
  repeat first [apply keeps_load_set | keeps_step].
Qed.

Lemma keeps_task_ident task : Store.keeps (Store.task_ident task).
Proof. unfold Store.task_ident. repeat keeps_step. Qed.

Lemma keeps_scan task_id items : Store.keeps (Store.scan task_id items).
Proof.
  induction items as [|task items IH]; simpl; [apply keeps_ret|].
  apply keeps_bind; [apply keeps_task_ident|]. intros ident.
  by destruct (String.eqb ident task_id); [apply keeps_ret|].
Qed.

Lemma keeps_max_loop {K} (gt : K → K → result bool) key it :
  (∀ item, Store.keeps (key item)) →
  ∀ maxitem maxval, Store.keeps (Store.max_loop gt key maxitem maxval it).
Proof.
  intros Hkey. induction it as [|item it IH]; intros maxitem maxval; simpl;
    [apply keeps_ret|].
  apply keeps_bind; [apply Hkey|]. intros val.
  destruct (gt val maxval) as [[]|e]; [apply IH..|apply keeps_raise].
Qed.

Lemma keeps_get_start_time fromisoformat task :
  Store.keeps (Store.get_start_time fromisoformat task).
Proof. unfold Store.get_start_time. repeat keeps_step. Qed.

Lemma keeps_find_container_name order task task_definition specified :
  Store.keeps (Store.find_container_name order task task_definition specified).
Proof.
  unfold Store.find_container_name.
  repeat first
    [ apply keeps_load_list | apply keeps_load_set | apply keeps_sorted_set
    | apply keeps_join | apply keeps_container_name
    | apply keeps_comprehension; intros ?
    | apply keeps_essential_name
    | keeps_step ].
Qed.

Lemma keeps_find_task fromisoformat tasks task_id :
  Store.keeps (Store.find_task fromisoformat tasks task_id).
Proof.
  unfold Store.find_task, Store.py_max.
  repeat first
    [ apply keeps_load_list | apply keeps_sorted_list | apply keeps_join
    | apply keeps_scan | apply keeps_task_ident
    | apply keeps_get_start_time
    | apply keeps_max_loop; intros ?
    | apply keeps_comprehension; intros ?
    | keeps_step ].
Qed.

(** *** The store and the values *)

Lemma bind_returns {A B} (m : Store.run A) (k : A → Store.run B) h h' a :
  m h = (h', Some (Return a)) → Store.bind m k h = k a h'.
Proof. unfold Store.bind. by intros ->. Qed.

Lemma load_at (h0 h : Store.t) l o :
  h0 !! l = Some o → h0 ⊆ h → Store.load l h = (h, Some (Return o)).
Proof.
  intros Hl Hsub. unfold Store.load.
  by rewrite (lookup_weaken _ _ _ _ Hl Hsub).
Qed.

Lemma load_list_at (h0 h : Store.t) l items :
  h0 !! l = Some (Store.DictList items) → h0 ⊆ h →
  Store.load_list l h = (h, Some (Return items)).
Proof.
  intros Hl Hsub. unfold Store.load_list.
  by rewrite (bind_returns _ _ _ _ _ (load_at _ _ _ _ Hl Hsub)).
Qed.

Lemma load_strs_at (h0 h : Store.t) l items :
  h0 !! l = Some (Store.StrList items) → h0 ⊆ h →
  Store.load_strs l h = (h, Some (Return items)).
Proof.
  intros Hl Hsub. unfold Store.load_strs.
  by rewrite (bind_returns _ _ _ _ _ (load_at _ _ _ _ Hl Hsub)).
Qed.

Lemma load_set_at (h0 h : Store.t) l members :
  h0 !! l = Some (Store.StrSet members) → h0 ⊆ h →
  Store.load_set l h = (h, Some (Return members)).
Proof.
  intros Hl Hsub. unfold Store.load_set.
  by rewrite (bind_returns _ _ _ _ _ (load_at _ _ _ _ Hl Hsub)).
Qed.

(** A new object leaves the store as it was, and is found at its place. *)
Lemma alloc_at o h :
  ∃ l h', Store.alloc o h = (h', Some (Return l))
          ∧ h ⊆ h' ∧ h' !! l = Some o.
Proof.
  eexists _, _. split; [done|]. split.
  - apply keeps_alloc.
  - apply lookup_insert_eq.
Qed.

Lemma container_at_inv h l c :
  Store.container_at h l = Some c →
  h !! l = Some (Store.ContainerDict (Container.name c) (Container.lastStatus c)).
Proof.
  unfold Store.container_at.
  destruct (h !! l) as [[]|]; try done. by intros [= <-].
Qed.

Lemma container_definition_at_inv h l d :
  Store.container_definition_at h l = Some d →
  h !! l = Some (Store.ContainerDefinitionDict
                   (ContainerDefinition.name d)
                   (ContainerDefinition.essential d)).
Proof.
  unfold Store.container_definition_at.
  destruct (h !! l) as [[]|]; try done. by intros [= <-].
Qed.

Lemma list_at_inv {A} (item_at : Store.loc → option A) h l vs :
  Store.list_at item_at h l = Some vs →
  ∃ items, h !! l = Some (Store.DictList items)
           ∧ Forall2 (λ item v, item_at item = Some v) items vs.
Proof.
  unfold Store.list_at.
  destruct (h !! l) as [[]|]; try done.
  intros Hm%mapM_Some. eauto.
Qed.

(** What [d.get(key, [])] gives, where the new empty list is at [empty]. *)
Lemma optional_list_at_inv {A} (item_at : Store.loc → option A) h h' l vs empty :
  Store.optional_list_at item_at h l = Some vs →
  h ⊆ h' → h' !! empty = Some (Store.DictList []) →
  ∃ items, h' !! default empty l = Some (Store.DictList items)
           ∧ Forall2 (λ item v, item_at item = Some v) items (default [] vs).
Proof.
  intros Hat Hsub Hempty. destruct l as [l|]; simpl in *.
  - destruct (Store.list_at item_at h l) as [listed|] eqn:Hl; [|done].
    injection Hat as <-. apply list_at_inv in Hl as (items & Hl & Hitems).
    exists items. split; [|done]. by eapply lookup_weaken.
  - injection Hat as <-. exists []. split; [done|constructor].
Qed.

Lemma task_at_inv h l task :
  Store.task_at h l = Some task →
  ∃ containers,
    h !! l = Some (Store.TaskDict (Task.taskArn task)
                     (Task.taskDefinitionArn task) (Task.startedAt task)
                     containers)
    ∧ Store.optional_list_at (Store.container_at h) h containers
      = Some (Task.containers task).
Proof.
  unfold Store.task_at.
  destruct (h !! l) as [[arn definition started containers| | | | | |]|];
    try done.
  destruct (Store.optional_list_at _ h containers) as [listed|] eqn:Hc;
    [|done].
  intros [= <-]. by exists containers.
Qed.

Lemma task_definition_at_inv h l task_definition :
  Store.task_definition_at h l = Some task_definition →
  ∃ definitions,
    h !! l = Some (Store.TaskDefinitionDict
                     (TaskDefinition.taskDefinitionArn task_definition)
                     definitions)
    ∧ Store.optional_list_at (Store.container_definition_at h) h definitions
      = Some (TaskDefinition.containerDefinitions task_definition).
Proof.
  unfold Store.task_definition_at.
  destruct (h !! l) as [[| |arn definitions| | | |]|]; try done.
  destruct (Store.optional_list_at _ h definitions) as [listed|] eqn:Hd;
    [|done].
  intros [= <-]. by exists definitions.
Qed.

(** A place stands for the same value in every store that keeps the
    objects of the first. *)
Lemma container_at_weaken h h' l c :
  Store.container_at h l = Some c → h ⊆ h' →
  Store.container_at h' l = Some c.
Proof.
  intros Hl%container_at_inv Hsub. unfold Store.container_at.
  rewrite (lookup_weaken _ _ _ _ Hl Hsub). by destruct c.
Qed.

Lemma task_at_weaken h h' l task :
  Store.task_at h l = Some task → h ⊆ h' → Store.task_at h' l = Some task.
Proof.
  intros (containers & Hl & Hc)%task_at_inv Hsub. unfold Store.task_at.
  rewrite (lookup_weaken _ _ _ _ Hl Hsub).
  assert (Store.optional_list_at (Store.container_at h') h' containers
          = Some (Task.containers task)) as ->; [|by destruct task].
  destruct containers as [lc|]; [|exact Hc]. simpl in *.
  destruct (Store.list_at _ h lc) as [listed|] eqn:Hlc; [|done].
  injection Hc as <-. apply list_at_inv in Hlc as (items & Hlc & Hitems).
  unfold Store.list_at. rewrite (lookup_weaken _ _ _ _ Hlc Hsub).
  assert (mapM (Store.container_at h') items = Some listed) as ->; [|done].
  apply mapM_Some. eapply Forall2_impl; [exact Hitems|].
  intros item c Hitem. exact (container_at_weaken _ _ _ _ Hitem Hsub).
Qed.

(** *** The loops *)

Lemma comprehension_names h0 h items containers :
  Forall2 (λ item c, Store.container_at h0 item = Some c) items containers →
  h0 ⊆ h →
  Store.comprehension
    (λ container,
       Store.bind (Store.container_name container)
         (λ name, Store.ret (Some name)))
    items h
  = (h, Some (Return (Container.name <$> containers))).
Proof.
  intros Hitems Hsub.
  induction Hitems as [|item c items containers Hc%container_at_inv _ IH];
    [done|].
  cbn [Store.comprehension]. unfold Store.container_name at 1.
  rewrite (bind_returns _ _ h h (Some (Container.name c))).
  - by rewrite (bind_returns _ _ _ _ _ IH).
  - rewrite (bind_returns _ _ h h (Container.name c)); [done|].
    by rewrite (bind_returns _ _ _ _ _ (load_at _ _ _ _ Hc Hsub)).
Qed.

Lemma comprehension_essential h0 h names_at members items definitions :
  Forall2 (λ item d, Store.container_definition_at h0 item = Some d)
    items definitions →
  h0 ⊆ h → h !! names_at = Some (Store.StrSet members) →
  Store.comprehension (Store.essential_name names_at) items h
  = (h, Some (Return
       (ContainerDefinition.name <$>
          filter (λ container_def,
                    is_essential container_def = true
                    ∧ ContainerDefinition.name container_def ∈ members)
                 definitions))).
Proof.
  intros Hitems Hsub Hnames.
  induction Hitems
    as [|item d items definitions Hd%container_definition_at_inv _ IH];
    [done|].
  cbn [Store.comprehension]. rewrite filter_cons.
  assert (Store.essential_name names_at item h
          = (h, Some (Return
               (if decide (is_essential d = true
                           ∧ ContainerDefinition.name d ∈ members)
                then Some (ContainerDefinition.name d) else None)))) as Hitem.
  { unfold Store.essential_name.
    rewrite (bind_returns _ _ _ _ _ (load_at _ _ _ _ Hd Hsub)).
    unfold is_essential.
    destruct (default false (ContainerDefinition.essential d)).
    - rewrite (bind_returns _ _ _ _ _
                 (load_set_at _ _ _ _ Hnames (reflexivity h))).
      case_bool_decide; case_decide; naive_solver.
    - case_decide; naive_solver. }
  rewrite (bind_returns _ _ _ _ _ Hitem), (bind_returns _ _ _ _ _ IH).
  by case_decide.
Qed.

Lemma task_ident_at h0 h item task :
  Store.task_at h0 item = Some task → h0 ⊆ h →
  Store.task_ident item h = (h, Some (Return (task_ident task))).
Proof.
  intros (containers & Hl & _)%task_at_inv Hsub. unfold Store.task_ident.
  by rewrite (bind_returns _ _ _ _ _ (load_at _ _ _ _ Hl Hsub)).
Qed.

Lemma comprehension_idents h0 h items tasks :
  Forall2 (λ item task, Store.task_at h0 item = Some task) items tasks →
  h0 ⊆ h →
  Store.comprehension
    (λ t, Store.bind (Store.task_ident t) (λ ident, Store.ret (Some ident)))
    items h
  = (h, Some (Return (task_ident <$> tasks))).
Proof.
  intros Hitems Hsub.
  induction Hitems as [|item task items tasks Htask _ IH]; [done|].
  cbn [Store.comprehension].
  rewrite (bind_returns _ _ h h (Some (task_ident task))).
  - by rewrite (bind_returns _ _ _ _ _ IH).
  - by rewrite (bind_returns _ _ _ _ _ (task_ident_at _ _ _ _ Htask Hsub)).
Qed.

(** The loop finds the place of the task that [List.find] finds. *)
Lemma scan_find h0 h task_id items tasks :
  Forall2 (λ item task, Store.task_at h0 item = Some task) items tasks →
  h0 ⊆ h →
  ∃ found,
    Store.scan task_id items h = (h, Some (Return found))
    ∧ match found with
      | Some item =>
          ∃ task,
            Store.task_at h0 item = Some task
            ∧ List.find (λ task, String.eqb (task_ident task) task_id) tasks
              = Some task
      | None =>
          List.find (λ task, String.eqb (task_ident task) task_id) tasks = None
      end.
Proof.
  intros Hitems Hsub.
  induction Hitems as [|item task items tasks Htask _ IH].
  - by exists None.
  - cbn [Store.scan List.find].
    rewrite (bind_returns _ _ _ _ _ (task_ident_at _ _ _ _ Htask Hsub)).
    destruct (String.eqb (task_ident task) task_id); [|exact IH].
    exists (Some item). split; [done|]. by exists task.
Qed.

Lemma get_start_time_at fromisoformat h0 h item task :
  Store.task_at h0 item = Some task → h0 ⊆ h →
  Store.get_start_time fromisoformat item h
  = (h, Some (Return (get_start_time fromisoformat task))).
Proof.
  intros (containers & Hl & _)%task_at_inv Hsub.
  unfold Store.get_start_time, get_start_time.
  rewrite (bind_returns _ _ _ _ _ (load_at _ _ _ _ Hl Hsub)).
  destruct (Task.startedAt task) as [[|d|s|n]|]; try done.
  by destruct (fromisoformat _).
Qed.

Lemma max_loop_at fromisoformat h0 h items tasks :
  Forall2 (λ item task, Store.task_at h0 item = Some task) items tasks →
  h0 ⊆ h →
  ∀ maxitem maxtask maxval,
    Store.task_at h0 maxitem = Some maxtask →
    ∃ r,
      Store.max_loop datetime.gt (Store.get_start_time fromisoformat)
        maxitem maxval items h
      = (h, Some r)
      ∧ Store.selected_task (h, Some r)
        = Some (max_loop datetime.gt (get_start_time fromisoformat)
                  maxtask maxval tasks).
Proof.
  intros Hitems Hsub.
  induction Hitems as [|item task items tasks Htask _ IH];
    intros maxitem maxtask maxval Hmax.
  - exists (Return maxitem). split; [done|]. simpl.
    by rewrite (task_at_weaken _ _ _ _ Hmax Hsub).
  - cbn [Store.max_loop max_loop].
    rewrite (bind_returns _ _ _ _ _
               (get_start_time_at fromisoformat _ _ _ _ Htask Hsub)).
    destruct (datetime.gt (get_start_time fromisoformat task) maxval)
      as [[]|e]; [by apply IH..|].
    by exists (Raise e).
Qed.

Lemma sorted_list_at h0 h l items :
  h0 !! l = Some (Store.StrList items) → h0 ⊆ h →
  ∃ l' h', Store.sorted_list l h = (h', Some (Return l'))
           ∧ h ⊆ h' ∧ h' !! l' = Some (Store.StrList (Str.sorted items)).
Proof.
  intros Hl Hsub. unfold Store.sorted_list.
  rewrite (bind_returns _ _ _ _ _ (load_strs_at _ _ _ _ Hl Hsub)).
  apply alloc_at.
Qed.

Lemma sorted_set_at order h0 h l members :
  h0 !! l = Some (Store.StrSet members) → h0 ⊆ h →
  ∃ l' h', Store.sorted_set order l h = (h', Some (Return l'))
           ∧ h ⊆ h'
           ∧ h' !! l' = Some (Store.StrList (Str.sorted (iter order members))).
Proof.
  intros Hl Hsub. unfold Store.sorted_set.
  rewrite (bind_returns _ _ _ _ _ (load_set_at _ _ _ _ Hl Hsub)).
  apply alloc_at.
Qed.

Lemma join_at sep h0 h l items :
  h0 !! l = Some (Store.StrList items) → h0 ⊆ h →
  Store.join sep l h = (h, Some (Return (Str.join sep items))).
Proof.
  intros Hl Hsub. unfold Store.join.
  by rewrite (bind_returns _ _ _ _ _ (load_strs_at _ _ _ _ Hl Hsub)).
Qed.

Lemma container_name_at h0 h item c :
  Store.container_at h0 item = Some c → h0 ⊆ h →
  Store.container_name item h = (h, Some (Return (Container.name c))).
Proof.
  intros Hc%container_at_inv Hsub. unfold Store.container_name.
  by rewrite (bind_returns _ _ _ _ _ (load_at _ _ _ _ Hc Hsub)).
Qed.

(** *** The selectors over the store and the selectors over values *)

Lemma find_task_at fromisoformat h tasks_at task_id tasks :
  Store.tasks_at h tasks_at = Some tasks →
  Store.selected_task (Store.find_task fromisoformat tasks_at task_id h)
  = Some (find_task fromisoformat tasks task_id).
Proof.
  intros (items & Hl & Hitems)%list_at_inv.
  pose proof (load_list_at h h _ _ Hl (reflexivity h)) as Hload.
  unfold Store.find_task, find_task.
  rewrite (bind_returns _ _ _ _ _ Hload).
  destruct Hitems as [|item task items tasks Htask Hitems]; [done|].
  assert (Hall : Forall2 (λ item task, Store.task_at h item = Some task)
                   (item :: items) (task :: tasks)) by by constructor.
  destruct task_id as [[|c s]|].
  2: { rewrite (bind_returns _ _ _ _ _ Hload).
       destruct (scan_find h h (String c s) _ _ Hall (reflexivity h))
         as (found & Hscan & Hfound).
       rewrite (bind_returns _ _ _ _ _ Hscan).
       destruct found as [l|].
       - destruct Hfound as (found & Hat & ->). simpl. by rewrite Hat.
       - rewrite Hfound.
         rewrite (bind_returns _ _ _ _ _ Hload).
         rewrite (bind_returns _ _ _ _ _
                    (comprehension_idents h h _ _ Hall (reflexivity h))).
         destruct (alloc_at (Store.StrList (task_ident <$> task :: tasks)) h)
           as (l1 & h1 & Halloc1 & Hsub1 & Hl1).
         rewrite (bind_returns _ _ _ _ _ Halloc1).
         destruct (sorted_list_at _ _ _ _ Hl1 (reflexivity h1))
           as (l2 & h2 & Hsorted & Hsub2 & Hl2).
         rewrite (bind_returns _ _ _ _ _ Hsorted).
         rewrite (bind_returns _ _ _ _ _
                    (join_at ", " _ _ _ _ Hl2 (reflexivity h2))).
         done. }
  all: unfold Store.py_max, py_max.
  all: rewrite (bind_returns _ _ _ _ _ Hload).
  all: rewrite (bind_returns _ _ _ _ _
                  (get_start_time_at fromisoformat h h _ _ Htask
                     (reflexivity h))).
  all: destruct (max_loop_at fromisoformat h h _ _ Hitems (reflexivity h)
                   item task (get_start_time fromisoformat task) Htask)
         as (r & -> & Hr).
  all: exact Hr.
Qed.

Lemma find_container_name_at
    order h task_place definition_place specified task task_definition :
  Store.task_at h task_place = Some task →
  Store.task_definition_at h definition_place = Some task_definition →
  (Store.find_container_name order task_place definition_place specified h).2
  = Some (find_container_name order task task_definition specified).
Proof.
  intros (containers & Htask & Hcontainers)%task_at_inv
         (definitions & Hdefinition & Hdefinitions)%task_definition_at_inv.
  unfold Store.find_container_name, find_container_name.
  destruct (alloc_at (Store.DictList []) h)
    as (empty & h1 & Halloc1 & Hsub1 & Hempty).
  rewrite (bind_returns _ _ _ _ _ Halloc1).
  rewrite (bind_returns _ _ _ _ _ (load_at _ _ _ _ Htask Hsub1)).
  cbv zeta.
  destruct (optional_list_at_inv _ _ _ _ _ _ Hcontainers Hsub1 Hempty)
    as (items & Hlist & Hitems).
  fold (task_containers task) in Hitems.
  rewrite (bind_returns _ _ _ _ _ (load_list_at _ _ _ _ Hlist (reflexivity h1))).
  assert (Hsub11 : h ⊆ h1) by done.
  rewrite (bind_returns _ _ _ _ _ (comprehension_names _ _ _ _ Hitems Hsub11)).
  fold (container_names task).
  destruct (alloc_at (Store.StrSet (container_names task)) h1)
    as (names & h2 & Halloc2 & Hsub2 & Hnames).
  rewrite (bind_returns _ _ _ _ _ Halloc2).
  assert (Hsub12 : h ⊆ h2) by (by etrans).
  destruct specified as [[|c s]|].
  2: { rewrite (bind_returns _ _ _ _ _
                  (load_set_at _ _ _ _ Hnames (reflexivity h2))).
       case_bool_decide; [|done].
       destruct (sorted_set_at order _ _ _ _ Hnames (reflexivity h2))
         as (available & h3 & Hsorted & Hsub3 & Havailable).
       rewrite (bind_returns _ _ _ _ _ Hsorted).
       by rewrite (bind_returns _ _ _ _ _
                     (join_at ", " _ _ _ _ Havailable (reflexivity h3))). }
  all: rewrite (bind_returns _ _ _ _ _ (load_list_at _ _ _ _ Hlist Hsub2)).
  all: destruct Hitems as [|item c items rest Hc Hitems]; [done|].
  all: destruct Hitems as [|item' c' items rest _ _];
         [by rewrite (container_name_at _ _ _ _ Hc Hsub12)|].
  all: destruct (alloc_at (Store.DictList []) h2)
         as (empty' & h3 & Halloc3 & Hsub3 & Hempty').
  all: rewrite (bind_returns _ _ _ _ _ Halloc3).
  all: assert (Hsub13 : h ⊆ h3) by (by etrans).
  all: rewrite (bind_returns _ _ _ _ _ (load_at _ _ _ _ Hdefinition Hsub13)).
  all: cbv zeta.
  all: destruct (optional_list_at_inv _ _ _ _ _ _ Hdefinitions Hsub13 Hempty')
         as (listed & Hlisted & Hdefs).
  all: fold (container_definitions task_definition) in Hdefs.
  all: rewrite (bind_returns _ _ _ _ _
                  (load_list_at _ _ _ _ Hlisted (reflexivity h3))).
  all: rewrite (bind_returns _ _ _ _ _
                  (comprehension_essential _ _ _ _ _ _ Hdefs Hsub13
                     (lookup_weaken _ _ _ _ Hnames Hsub3))).
  all: fold (essential_containers task task_definition).
  all: destruct (alloc_at
                   (Store.StrSet (essential_containers task task_definition))
                   h3)
         as (essential & h4 & Halloc4 & Hsub4 & Hessential).
  all: rewrite (bind_returns _ _ _ _ _ Halloc4).
  all: rewrite (bind_returns _ _ _ _ _
                  (load_set_at _ _ _ _ Hessential (reflexivity h4))).
  all: destruct (size (essential_containers task task_definition) =? 1)%nat;
         [by destruct (iter order _)|].
  all: assert (Hnames4 : h4 !! names = Some (Store.StrSet (container_names task)))
         by (eapply lookup_weaken; [exact Hnames|by etrans]).
  all: destruct (sorted_set_at order _ _ _ _ Hnames4 (reflexivity h4))
         as (available & h5 & Hsorted & Hsub5 & Havailable).
  all: rewrite (bind_returns _ _ _ _ _ Hsorted).
  all: by rewrite (bind_returns _ _ _ _ _
                     (join_at ", " _ _ _ _ Havailable (reflexivity h5))).
Qed.

Lemma find_container_name_any_order
    order1 order2 task task_definition specified_container :
  find_container_name order1 task task_definition specified_container =
  find_container_name order2 task task_definition specified_container.
Proof.
  unfold find_container_name.
  rewrite (sorted_iter order1), (sorted_iter order2).
  destruct (size (essential_containers task task_definition) =? 1)%nat
    eqn:Hsize; [|done].
  apply Nat.eqb_eq, size_1_elem_of in Hsize as [x Hx%leibniz_equiv].
  by rewrite Hx, !iter_singleton.
Qed.

(** C9: the selectors change nothing and depend on nothing but the data
    they are given.

    Run over a store, each selector leaves every object of the store at
    its place and as it was ([h ⊆ h'] for the store [h] before and the
    store [h'] after): the tasks, their containers, the task definition and
    the lists that hold them are not written to; what is new in the store
    after the run are the lists and sets the selector built for itself.
    The requested identifier and the requested name are strings, which
    cannot be changed.

    Two runs on equal data end alike, wherever the data sits in the store
    of the one run and of the other, and in whatever order the sets of the
    two runs iterate: both return equal values or raise the same exception
    with the same message, namely what the selector over values gives. *)
Theorem selectors_pure :
  (∀ fromisoformat tasks task_id h,
     h ⊆ (Store.find_task fromisoformat tasks task_id h).1)
  ∧ (∀ order task task_definition specified_container h,
       h ⊆ (Store.find_container_name order task task_definition
              specified_container h).1)
  ∧ (∀ fromisoformat task_id h1 tasks1 h2 tasks2 tasks,
       Store.tasks_at h1 tasks1 = Some tasks →
       Store.tasks_at h2 tasks2 = Some tasks →
       Store.selected_task (Store.find_task fromisoformat tasks1 task_id h1)
       = Store.selected_task (Store.find_task fromisoformat tasks2 task_id h2)
       ∧ Store.selected_task (Store.find_task fromisoformat tasks1 task_id h1)
         = Some (find_task fromisoformat tasks task_id))
  ∧ (∀ order1 order2 specified_container
       h1 task1 definition1 h2 task2 definition2 task task_definition,
       Store.task_at h1 task1 = Some task →
       Store.task_definition_at h1 definition1 = Some task_definition →
       Store.task_at h2 task2 = Some task →
       Store.task_definition_at h2 definition2 = Some task_definition →
       (Store.find_container_name order1 task1 definition1
          specified_container h1).2
       = (Store.find_container_name order2 task2 definition2
            specified_container h2).2
       ∧ (Store.find_container_name order1 task1 definition1
            specified_container h1).2
         = Some (find_container_name order1 task task_definition
                   specified_container)).
Proof.
  split; [|split; [|split]].
  - intros fromisoformat tasks task_id. apply keeps_find_task.
  - intros order task task_definition specified_container.
    apply keeps_find_container_name.
  - intros fromisoformat task_id h1 tasks1 h2 tasks2 tasks H1 H2.
    by rewrite (find_task_at fromisoformat h1 tasks1 task_id tasks H1),
      (find_task_at fromisoformat h2 tasks2 task_id tasks H2).
  - intros order1 order2 specified_container
      h1 task1 definition1 h2 task2 definition2 task task_definition
      Ht1 Hd1 Ht2 Hd2.
    rewrite (find_container_name_at order1 h1 _ _ specified_container _ _
               Ht1 Hd1),
      (find_container_name_at order2 h2 _ _ specified_container _ _ Ht2 Hd2).
    split; [|done]. f_equal. apply find_container_name_any_order.
Qed.

Lemma selectors_pure_witness :
  (Store.selected_task
     (Store.find_task iso.fromisoformat 12%positive (Some "B") sample_store)
   = Store.selected_task
       (Store.find_task iso.fromisoformat 2%positive (Some "B") other_store)
   ∧ Store.selected_task
       (Store.find_task iso.fromisoformat 12%positive (Some "B") sample_store)
     = Some (find_task iso.fromisoformat [task_A; task_B] (Some "B")))
  ∧ ((Store.find_container_name elements_order 4%positive 9%positive None
        sample_store).2
     = (Store.find_container_name reversed_order 40%positive 30%positive None
          other_store).2
     ∧ (Store.find_container_name elements_order 4%positive 9%positive None
          sample_store).2
       = Some (find_container_name elements_order web_sidecar
                 (app_definition true false) None)).
Proof.
  split.
  - apply (proj1 (proj2 (proj2 selectors_pure)) iso.fromisoformat (Some "B")
             sample_store 12%positive other_store 2%positive
             [task_A; task_B]);
      by vm_compute.
  - apply (proj2 (proj2 (proj2 selectors_pure)) elements_order reversed_order
             None sample_store 4%positive 9%positive
             other_store 40%positive 30%positive
             web_sidecar (app_definition true false));
      by vm_compute.
Defined.

(** * The rest of the script *)

(** ** More on the selectors *)

Lemma iter_elem_of (order : set_order) (s : gset string) x :
  x ∈ iter order s ↔ x ∈ s.
Proof. by rewrite (iter_perm order s), elem_of_elements. Qed.

Lemma iter_not_nil (order : set_order) (s : gset string) :
  size s = 1%nat → iter order s ≠ [].
Proof.
  intros Hsize Hnil. apply size_1_elem_of in Hsize as [x Hx%leibniz_equiv].
  by rewrite Hx, iter_singleton in Hnil.
Qed.

Lemma find_container_name_return_inv
    order task task_definition specified_container name :
  find_container_name order task task_definition specified_container
    = Return name →
  name ∈ container_names task.
Proof.
  unfold find_container_name.
  destruct specified_container as [[|c s]|].
  2: { case_bool_decide as Hin; [done|]. intros [= <-].
       by destruct (decide (String c s ∈ container_names task)). }
  all: unfold container_names at 2.
  all: destruct (task_containers task) as [|c1 [|c2 l]] eqn:Hc;
         [done|intros [= <-]; set_solver|].
  all: rewrite <- Hc; fold (container_names task).
  all: destruct (size _ =? 1)%nat; [|done].
  all: destruct (iter order _) as [|first rest] eqn:Hiter; [done|].
  all: intros [= <-].
  all: assert (Hin : first ∈ essential_containers task task_definition)
         by (apply (iter_elem_of order); rewrite Hiter; set_solver).
  all: by apply elem_of_essential_containers in Hin as [? _].
Qed.

(** X1: whatever is asked for, a name the container selector returns is the
    name of a container of the running task. *)
Theorem find_container_name_returns_running
    order task task_definition specified_container name :
  find_container_name order task task_definition specified_container
    = Return name →
  name ∈ container_names task.
Proof. apply find_container_name_return_inv. Qed.

(** X2: the container selector fails with [ValueError] only; taking the
    first member of the essential names never runs dry. *)
Theorem find_container_name_raises_value_error
    order task task_definition specified_container e :
  find_container_name order task task_definition specified_container
    = Raise e →
  ∃ msg, e = ValueError msg.
Proof.
  unfold find_container_name.
  destruct specified_container as [[|c s]|].
  2: { case_bool_decide; [|done]. intros [= <-]. eauto. }
  all: destruct (task_containers task) as [|c1 [|c2 l]];
         [intros [= <-]; eauto|done|].
  all: destruct (size _ =? 1)%nat eqn:Hsize; [|intros [= <-]; eauto].
  all: apply Nat.eqb_eq in Hsize; pose proof (iter_not_nil order _ Hsize).
  all: by destruct (iter order _).
Qed.

Lemma max_loop_member {A K} (gt : K → K → result bool) (key : A → K) it :
  ∀ maxitem maxval item,
    max_loop gt key maxitem maxval it = Return item →
    item = maxitem ∨ item ∈ it.
Proof.
  induction it as [|x it IH]; intros maxitem maxval item; simpl.
  - intros [= <-]. by left.
  - destruct (gt (key x) maxval) as [[]|]; [..|done];
      intros [->|Hin]%IH; set_solver.
Qed.

Lemma max_loop_raises {A} (key : A → datetime.t) it :
  ∀ maxitem maxval e,
    max_loop datetime.gt key maxitem maxval it = Raise e → e = naive_aware.
Proof.
  induction it as [|x it IH]; intros maxitem maxval e; simpl; [done|].
  destruct (datetime.gt (key x) maxval) as [[]|e'] eqn:Hgt; eauto.
  intros [= <-]. unfold datetime.gt in Hgt.
  destruct (datetime.utcoffset (key x)), (datetime.utcoffset maxval);
    try congruence.
  by destruct (_ =? _) in Hgt.
Qed.

Lemma find_task_return_inv fromisoformat tasks task_id task :
  find_task fromisoformat tasks task_id = Return task →
  task ∈ tasks
  ∧ ∀ wanted, requested task_id = Some wanted → task_ident task = wanted.
Proof.
  unfold find_task. destruct tasks as [|first tasks]; [done|].
  destruct task_id as [[|c s]|]; simpl requested.
  2: { destruct (List.find _ _) as [found|] eqn:Hfind; [|done].
       intros [= <-]. apply find_some in Hfind as [Hin Heq%String.eqb_eq].
       split; [by apply list_elem_of_In|]. by intros ? [= <-]. }
  all: simpl; intros [->|Hin]%max_loop_member; split; (done || set_solver).
Qed.

(** X3: a task the task selector returns is one of the tasks it was given,
    and carries the identifier that was asked for, if one was. *)
Theorem find_task_returns_listed fromisoformat tasks task_id task :
  find_task fromisoformat tasks task_id = Return task →
  task ∈ tasks
  ∧ ∀ wanted, requested task_id = Some wanted → task_ident task = wanted.
Proof. apply find_task_return_inv. Qed.

(** X4: how the task selector fails.  With an identifier asked for it
    raises [ValueError], and then no task carries the identifier; start
    times are not compared.  Without one it raises [ValueError] on the empty
    sequence and, on any other, nothing but the [TypeError] of comparing a
    naive with an aware datetime. *)
Theorem find_task_raises fromisoformat tasks task_id e :
  find_task fromisoformat tasks task_id = Raise e →
  match requested task_id with
  | Some wanted =>
      ∃ msg, e = ValueError msg
             ∧ Forall (λ task, task_ident task ≠ wanted) tasks
  | None =>
      (tasks = [] ∧ e = ValueError "No running tasks found")
      ∨ (tasks ≠ [] ∧ e = naive_aware)
  end.
Proof.
  unfold find_task. destruct tasks as [|first tasks].
  - intros [= <-]. destruct task_id as [[|c s]|]; simpl; eauto.
  - destruct task_id as [[|c s]|]; simpl requested.
    2: { destruct (List.find _ _) as [found|] eqn:Hfind; [done|].
         intros [= <-]. eexists. split; [done|].
         apply Forall_forall. intros t Hin%list_elem_of_In.
         apply (find_none _ _ Hfind) in Hin. by apply String.eqb_neq. }
    all: simpl; intros ->%max_loop_raises; by right.
Qed.

(** ** Empty requests *)

(** C10: at both selectors the empty string is no request at all.

    The task selector, asked for the empty identifier, does what it does
    when asked for none.  It picks the most recent task: when the start
    times share their offset it returns the first of the tasks with the
    greatest start time.  It never answers that the task was not found: it
    fails on the empty sequence only, or with the [TypeError] of comparing
    a naive with an aware start time.

    The container selector, asked for the empty name, does what it does
    when asked for none.  It goes on to the rules for no containers and for
    a single container, and with two containers or more to the essential
    containers: the only essential name that is running is returned, and
    otherwise the error is the one that asks for -c, not the one that
    reports a name as not found. *)
Theorem empty_request_is_no_request :
  (∀ fromisoformat tasks,
     find_task fromisoformat tasks (Some EmptyString) =
     find_task fromisoformat tasks None
     ∧ (∀ o, tasks ≠ [] →
          Forall (λ t, datetime.utcoffset (get_start_time fromisoformat t) = o)
            tasks →
          ∃ before task after,
            tasks = (before ++ task :: after)%list
            ∧ find_task fromisoformat tasks (Some EmptyString) = Return task
            ∧ Forall (λ t, datetime.cmp_fields
                             (get_start_time fromisoformat task)
                             (get_start_time fromisoformat t) = Gt) before
            ∧ Forall (λ t, datetime.cmp_fields
                             (get_start_time fromisoformat t)
                             (get_start_time fromisoformat task) ≠ Gt) after)
     ∧ (∀ e, find_task fromisoformat tasks (Some EmptyString) = Raise e →
          (tasks = [] ∧ e = ValueError "No running tasks found")
          ∨ (tasks ≠ [] ∧ e = naive_aware)))
  ∧ (∀ order task task_definition,
       find_container_name order task task_definition (Some EmptyString) =
       find_container_name order task task_definition None
       ∧ (task_containers task = [] →
          find_container_name order task task_definition (Some EmptyString) =
          Raise (ValueError "No containers found in task"))
       ∧ (∀ container, task_containers task = [container] →
          find_container_name order task task_definition (Some EmptyString) =
          Return (Container.name container))
       ∧ ((2 ≤ length (task_containers task))%nat →
          (∀ n, essential_containers task task_definition = {[n]} →
             find_container_name order task task_definition (Some EmptyString)
             = Return n)
          ∧ (size (essential_containers task task_definition) ≠ 1%nat →
             ∃ available,
               sorted_listing (container_names task) available
               ∧ find_container_name order task task_definition
                   (Some EmptyString) =
                 Raise (ValueError
                   ("Container name must be specified with -c because "
                    ++ "it cannot be automatically determined. "
                    ++ "Available containers: "
                    ++ Str.join ", " available))))).
Proof.
  split.
  - intros fromisoformat tasks.
    change (find_task fromisoformat tasks (Some EmptyString))
      with (find_task fromisoformat tasks None).
    split; [done|]. split.
    + intros o Hne Hall.
      by apply (find_task_same_offset fromisoformat tasks o).
    + intros e. unfold find_task. destruct tasks as [|first tasks].
      * intros [= <-]. by left.
      * simpl. intros ->%max_loop_raises. by right.
  - intros order task task_definition.
    change (find_container_name order task task_definition (Some EmptyString))
      with (find_container_name order task task_definition None).
    split; [done|].
    split; [|split].
    + unfold find_container_name. by intros ->.
    + unfold find_container_name. by intros container ->.
    + intros Hlen. rewrite (find_container_name_many order _ _ Hlen). simpl.
      split.
      * intros n ->. by rewrite size_singleton, iter_singleton.
      * intros Hne. apply Nat.eqb_neq in Hne. rewrite Hne.
        eexists. split; [apply (sorted_iter_listing order)|].
        done.
Qed.

Lemma empty_request_is_no_request_witness :
  (∃ before task after,
     [task_older; task_running; task_older] = (before ++ task :: after)%list
     ∧ find_task iso.fromisoformat [task_older; task_running; task_older]
         (Some EmptyString)
       = Return task
     ∧ Forall (λ t, datetime.cmp_fields
                      (get_start_time iso.fromisoformat task)
                      (get_start_time iso.fromisoformat t) = Gt) before
     ∧ Forall (λ t, datetime.cmp_fields
                      (get_start_time iso.fromisoformat t)
                      (get_start_time iso.fromisoformat task) ≠ Gt) after)
  ∧ (([task_A; task_B] = [] ∧ naive_aware = ValueError "No running tasks found")
     ∨ ([task_A; task_B] ≠ [] ∧ naive_aware = naive_aware))
  ∧ find_container_name reversed_order no_containers (app_definition true true)
      (Some EmptyString) = Raise (ValueError "No containers found in task")
  ∧ find_container_name reversed_order web_only (app_definition false true)
      (Some EmptyString) = Return "web"
  ∧ find_container_name reversed_order web_sidecar (app_definition false true)
      (Some EmptyString) = Return "sidecar"
  ∧ ∃ available,
      sorted_listing (container_names web_sidecar) available
      ∧ find_container_name reversed_order web_sidecar
          (app_definition true true) (Some EmptyString) =
        Raise (ValueError
          ("Container name must be specified with -c because it cannot be "
           ++ "automatically determined. Available containers: "
           ++ Str.join ", " available)).
Proof.
  pose proof (proj1 empty_request_is_no_request) as Htask.
  pose proof (proj2 empty_request_is_no_request) as Hcontainer.
  split; [|split; [|split; [|split; [|split]]]].
  - apply (proj1 (proj2 (Htask iso.fromisoformat
                           [task_older; task_running; task_older]))
             (Some 7200000000)); [done|].
    repeat constructor.
  - apply (proj2 (proj2 (Htask iso.fromisoformat [task_A; task_B]))).
    reflexivity.
  - apply (proj1 (proj2 (Hcontainer reversed_order no_containers
                           (app_definition true true)))).
    reflexivity.
  - apply (proj1 (proj2 (proj2 (Hcontainer reversed_order web_only
                                  (app_definition false true))))
             (Container.make "web" "RUNNING")).
    reflexivity.
  - apply (proj2 (proj2 (proj2 (Hcontainer reversed_order web_sidecar
                                  (app_definition false true))))).
    + simpl. lia.
    + by vm_compute.
  - apply (proj2 (proj2 (proj2 (Hcontainer reversed_order web_sidecar
                                  (app_definition true true))))).
    + simpl. lia.
    + by vm_compute.
Defined.

(** ** Names out of ARNs *)

Lemma contains_char_count c s :
  contains_char c s = false ↔ count_char c s = 0%nat.
Proof.
  induction s as [|a s IH]; simpl; [done|].
  destruct (Ascii.eqb a c); simpl; [done|]. apply IH.
Qed.

(** A text is free of a character, or it has a last occurrence of it. *)
Lemma last_occurrence c s :
  count_char c s = 0%nat
  ∨ ∃ s1 s2, s = s1 ++ String c s2 ∧ count_char c s2 = 0%nat.
Proof.
  induction s as [|a s IH]; [by left|].
  destruct IH as [Hfree|(s1 & s2 & -> & Hfree)].
  - destruct (Ascii.eqb_spec a c) as [->|Hne].
    + right. by exists EmptyString, s.
    + left. simpl. by apply Ascii.eqb_neq in Hne as ->.
  - right. by exists (String a s1), s2.
Qed.

(** A text is free of a character, or it has a first occurrence of it. *)
Lemma first_occurrence c s :
  count_char c s = 0%nat
  ∨ ∃ s1 s2, s = s1 ++ String c s2 ∧ count_char c s1 = 0%nat.
Proof.
  induction s as [|a s IH]; [by left|].
  destruct (Ascii.eqb_spec a c) as [->|Hne].
  - right. by exists EmptyString, s.
  - destruct IH as [Hfree|(s1 & s2 & -> & Hfree)].
    + left. simpl. by apply Ascii.eqb_neq in Hne as ->.
    + right. exists (String a s1), s2. split; [done|].
      simpl. by apply Ascii.eqb_neq in Hne as ->.
Qed.

Lemma last_segment_decompose s :
  count_char "/" (last_segment s) = 0%nat
  ∧ ∃ before,
      s = before ++ last_segment s
      ∧ (before = EmptyString ∨ ∃ path, before = path ++ "/").
Proof.
  unfold last_segment.
  destruct (last_occurrence "/" s) as [Hfree|(s1 & s2 & -> & Hfree)].
  - rewrite (split_without _ _ Hfree). simpl. split; [done|].
    exists EmptyString. split; [done|by left].
  - rewrite split_app, (split_without _ _ Hfree), List.last_last.
    split; [done|]. exists (s1 ++ "/"). split; [|right; by exists s1].
    by rewrite append_assoc.
Qed.

(** X5: the name the script cuts out of an ARN has no slash in it and is
    the end of the ARN: what stands before it is empty or ends in a
    slash. *)
Theorem last_segment_suffix s :
  count_char "/" (last_segment s) = 0%nat
  ∧ ∃ before,
      s = before ++ last_segment s
      ∧ (before = EmptyString ∨ ∃ path, before = path ++ "/").
Proof. apply last_segment_decompose. Qed.

Lemma task_definition_name_cases arn :
  let segment := last_segment arn in
  (count_char ":" segment = 0%nat ∧ task_definition_name arn = segment)
  ∨ ∃ family rest,
      segment = family ++ String ":" rest
      ∧ count_char ":" family = 0%nat
      ∧ task_definition_name arn = family.
Proof.
  intros segment. unfold task_definition_name. fold segment.
  destruct (first_occurrence ":" segment) as [Hfree|(s1 & s2 & Hs & Hfree)].
  - left. by rewrite (proj2 (contains_char_count _ _) Hfree).
  - right. exists s1, s2. rewrite Hs.
    destruct (contains_char ":" (s1 ++ String ":" s2)) eqn:Hin.
    + by rewrite split_app, (split_without _ _ Hfree).
    + apply contains_char_count in Hin. rewrite count_char_app in Hin.
      simpl in Hin. lia.
Qed.

(** X6: the name [get_task_definition] asks the API for has neither a
    slash nor a colon in it. *)
Theorem task_definition_name_plain arn :
  count_char "/" (task_definition_name arn) = 0%nat
  ∧ count_char ":" (task_definition_name arn) = 0%nat.
Proof.
  destruct (last_segment_decompose arn) as [Hslash _].
  destruct (task_definition_name_cases arn)
    as [[Hcolon ->]|(family & rest & Hs & Hcolon & ->)]; [done|].
  split; [|done]. rewrite Hs, count_char_app in Hslash. lia.
Qed.

(** X7: of an ARN that ends in family:revision, [get_task_definition] asks
    for the family alone: the revision the task runs plays no part in which
    definition is fetched. *)
Theorem task_definition_name_drops_revision resource family revision :
  count_char "/" family = 0%nat → count_char ":" family = 0%nat →
  count_char "/" revision = 0%nat →
  task_definition_name (resource ++ "/" ++ family ++ ":" ++ revision) = family.
Proof.
  intros Hslash Hcolon Hrev. unfold task_definition_name, last_segment.
  change (resource ++ "/" ++ family ++ ":" ++ revision)
    with (resource ++ String "/" (family ++ String ":" revision)).
  rewrite split_app, (split_without "/" (family ++ String ":" revision)),
    List.last_last.
  - destruct (contains_char ":" _) eqn:Hin.
    + by rewrite split_app, (split_without _ _ Hcolon).
    + apply contains_char_count in Hin. rewrite count_char_app in Hin.
      simpl in Hin. lia.
  - rewrite count_char_app. simpl. lia.
Qed.

(** ** Effects *)

Lemma lookup_overview ev : lookup_event ev → overview_event ev.
Proof. by destruct ev. Qed.

Lemma bind_trace {A B} (P : event → Prop) (m : prog A) (k : A → prog B) :
  Forall P m.1 → (∀ a, Forall P (k a).1) → Forall P (bind m k).1.
Proof.
  destruct m as [t [a|e|c]]; simpl; intros Ht Hk; [|done..].
  specialize (Hk a). destruct (k a) as [t' r]. simpl in *.
  by apply Forall_app.
Qed.

Lemma try_except_trace {A} (P : event → Prop) (m : prog A) handler :
  Forall P m.1 → (∀ e, Forall P (handler e).1) →
  Forall P (try_except m handler).1.
Proof.
  destruct m as [t [a|e|c]]; simpl; intros Ht Hh; [done| |done].
  specialize (Hh e). destruct (handler e) as [t' r]. simpl in *.
  by apply Forall_app.
Qed.

Section overview.
Variable aws : world.

Lemma call_lookup {A} ev (r : response A) :
  lookup_event ev → Forall lookup_event (call ev r).1.
Proof. intros. by repeat constructor. Qed.

Lemma service_row_finished cluster service :
  ∃ row, (service_row aws cluster service).2 = Finished row
         ∧ length row = 4%nat
         ∧ row !! 0%nat = Some (Text cluster).
Proof.
  unfold service_row, get_service_details, call. simpl.
  destruct (describe_services aws cluster service) as [[[|first rest]|]|e];
    simpl; eauto.
Qed.

Lemma service_row_trace cluster service :
  Forall lookup_event (service_row aws cluster service).1.
Proof.
  unfold service_row, get_service_details, call. simpl.
  destruct (describe_services aws cluster service) as [[[|first rest]|]|e];
    simpl; by repeat constructor.
Qed.

Lemma service_rows_finished cluster services :
  ∃ rows, (service_rows aws cluster services).2 = Finished rows
          ∧ Forall (λ row, length row = 4%nat
                           ∧ row !! 0%nat = Some (Text cluster)) rows.
Proof.
  induction services as [|service services (rows & Hrows & Hall)]; simpl.
  - by exists [].
  - destruct (service_row_finished cluster service) as (row & Hrow & Hlen).
    destruct (service_row aws cluster service) as [t r]. simpl in Hrow.
    subst r. simpl.
    destruct (service_rows aws cluster services) as [t' r']. simpl in Hrows.
    subst r'. simpl. exists (row :: rows). split; [done|]. by constructor.
Qed.

Lemma service_rows_trace cluster services :
  Forall lookup_event (service_rows aws cluster services).1.
Proof.
  induction services as [|service services IH]; simpl; [constructor|].
  apply bind_trace; [apply service_row_trace|]. intros row.
  apply bind_trace; [done|]. intros rows. constructor.
Qed.

Lemma cluster_rows_finished cluster :
  ∃ rows, (cluster_rows aws cluster).2 = Finished rows
          ∧ Forall (λ row, length row = 4%nat
                           ∧ row !! 0%nat = Some (Text cluster)) rows.
Proof.
  unfold cluster_rows, get_services_for_cluster, call. simpl.
  destruct (list_services aws cluster) as [pages|e]; simpl.
  - destruct (service_rows_finished cluster
                (Str.sorted (last_segment <$> concat (default [] <$> pages))))
      as (rows & Hrows & Hall).
    destruct (service_rows aws cluster _) as [t r]. simpl in *. subst r.
    simpl. eauto.
  - eexists. split; [done|]. by repeat constructor.
Qed.

Lemma cluster_rows_trace cluster :
  Forall lookup_event (cluster_rows aws cluster).1.
Proof.
  unfold cluster_rows, get_services_for_cluster.
  apply try_except_trace; [|intros e; constructor].
  apply bind_trace; [|intros pages].
  - apply bind_trace; [by apply call_lookup|]. intros pages. constructor.
  - apply service_rows_trace.
Qed.

Lemma table_rows_finished clusters :
  ∃ rows, (table_rows aws clusters).2 = Finished rows
          ∧ Forall (λ row, length row = 4%nat
                           ∧ ∃ cluster, cluster ∈ clusters
                                        ∧ row !! 0%nat = Some (Text cluster))
               rows.
Proof.
  induction clusters as [|cluster clusters (more & Hmore & Hall)]; simpl.
  - by exists [].
  - destruct (cluster_rows_finished cluster) as (rows & Hrows & Hlen).
    destruct (cluster_rows aws cluster) as [t r]. simpl in Hrows. subst r.
    simpl. destruct (table_rows aws clusters) as [t' r']. simpl in Hmore.
    subst r'. simpl. exists (rows ++ more)%list. split; [done|].
    apply Forall_app. split.
    + eapply Forall_impl; [exact Hlen|]. intros row [? ?].
      split; [done|]. exists cluster. split; [set_solver|done].
    + eapply Forall_impl; [exact Hall|]. intros row [? (c & ? & ?)].
      split; [done|]. exists c. split; [set_solver|done].
Qed.

Lemma table_rows_trace clusters :
  Forall lookup_event (table_rows aws clusters).1.
Proof.
  induction clusters as [|cluster clusters IH]; simpl; [constructor|].
  apply bind_trace; [apply cluster_rows_trace|]. intros rows.
  apply bind_trace; [done|]. intros more. constructor.
Qed.

Lemma print_all_spec lines :
  print_all lines = (Printed <$> lines, Finished tt).
Proof.
  induction lines as [|line lines IH]; simpl; [done|].
  by rewrite IH.
Qed.

Lemma display_clusters_table_trace :
  Forall overview_event (display_clusters_table aws).1.
Proof.
  unfold display_clusters_table, get_all_clusters.
  apply bind_trace.
  - apply bind_trace; [by repeat constructor|]. intros pages. constructor.
  - intros [|cluster clusters]; [by repeat constructor|].
    apply bind_trace.
    { eapply Forall_impl; [apply table_rows_trace|apply lookup_overview]. }
    intros rows.
    destruct (tabulate_installed aws); [by repeat constructor|].
    rewrite print_all_spec. cbn [fst]. apply Forall_fmap, Forall_true. done.
Qed.

Lemma display_clusters_table_ends :
  (display_clusters_table aws).2 =
  match list_clusters aws with
  | Response _ => Finished tt
  | Failure e => Thrown e
  end.
Proof.
  unfold display_clusters_table, get_all_clusters, call. simpl.
  destruct (list_clusters aws) as [pages|e]; simpl; [|done].
  destruct (last_segment <$> concat (default [] <$> pages))
    as [|cluster clusters]; [done|].
  destruct (table_rows_finished (Str.sorted (cluster :: clusters)))
    as (rows & Hrows & _).
  destruct (table_rows aws _) as [t r]. simpl in Hrows. subst r. simpl.
  destruct (tabulate_installed aws); [done|].
  by rewrite print_all_spec.
Qed.

(** X14: the overview ends normally whenever the clusters can be listed:
    a failure to list or describe services becomes a row of the table. *)
Theorem display_clusters_table_ending :
  (display_clusters_table aws).2 =
  match list_clusters aws with
  | Response _ => Finished tt
  | Failure e => Thrown e
  end.
Proof. apply display_clusters_table_ends. Qed.

End overview.

(** ** The order of the rows *)

Lemma sorted_StronglySorted l : StronglySorted String.le (Str.sorted l).
Proof. apply (StronglySorted_merge_sort String.le). Qed.

Lemma StronglySorted_constant (c : string) l :
  Forall (λ x, x = c) l → StronglySorted String.le l.
Proof.
  induction 1 as [|x l -> Hall IH]; constructor; [done|].
  eapply Forall_impl; [exact Hall|]. by intros ? ->.
Qed.

Section overview_order.
Variable aws : world.

Lemma service_row_cells cluster service row :
  (service_row aws cluster service).2 = Finished row →
  row_cluster row = cluster ∧ row_service row = service.
Proof.
  unfold service_row, get_service_details, call. simpl.
  destruct (describe_services aws cluster service) as [[[|first rest]|]|e];
    simpl; by intros [= <-].
Qed.

Lemma service_rows_cells cluster services : ∀ rows,
  (service_rows aws cluster services).2 = Finished rows →
  Forall (λ row, row_cluster row = cluster) rows
  ∧ row_service <$> rows = services.
Proof.
  induction services as [|service services IH]; simpl; intros rows.
  - by intros [= <-].
  - pose proof (service_row_cells cluster service) as Hrow.
    destruct (service_row aws cluster service) as [t [row|e|c]]; [|done..].
    destruct (Hrow row eq_refl) as [Hc Hs]. simpl.
    destruct (service_rows aws cluster services) as [t' [more|e|c]];
      [|done..].
    destruct (IH more eq_refl) as [Hall Hservices]. simpl.
    intros [= <-]. split; [by constructor|].
    rewrite fmap_cons. by rewrite Hs, Hservices.
Qed.

Lemma cluster_rows_cells cluster rows :
  (cluster_rows aws cluster).2 = Finished rows →
  Forall (λ row, row_cluster row = cluster) rows
  ∧ StronglySorted String.le (row_service <$> rows).
Proof.
  unfold cluster_rows, get_services_for_cluster, call. simpl.
  destruct (list_services aws cluster) as [pages|e]; simpl.
  - pose proof (service_rows_cells cluster
                  (Str.sorted (last_segment <$> concat (default [] <$> pages))))
      as Hcells.
    destruct (service_rows_finished aws cluster
                (Str.sorted (last_segment <$> concat (default [] <$> pages))))
      as (more & Hmore & _).
    destruct (service_rows aws cluster _) as [t r]. simpl in Hmore. subst r.
    destruct (Hcells more eq_refl) as [Hall Hservices]. simpl.
    intros [= <-]. split; [done|].
    rewrite Hservices. apply sorted_StronglySorted.
  - intros [= <-]. split; repeat constructor.
Qed.

(** X17: the rows of one cluster all name that cluster, and come in
    ascending order of their second cell, the service name. *)
Theorem cluster_rows_in_order cluster rows :
  (cluster_rows aws cluster).2 = Finished rows →
  Forall (λ row, row_cluster row = cluster) rows
  ∧ StronglySorted String.le (row_service <$> rows).
Proof. apply cluster_rows_cells. Qed.

Lemma table_rows_clusters clusters : ∀ rows,
  (table_rows aws clusters).2 = Finished rows →
  Forall (λ row, row_cluster row ∈ clusters) rows
  ∧ (StronglySorted String.le clusters →
     StronglySorted String.le (row_cluster <$> rows)).
Proof.
  induction clusters as [|cluster clusters IH]; simpl; intros rows.
  - intros [= <-]. split; constructor.
  - pose proof (cluster_rows_cells cluster) as Hrows.
    destruct (cluster_rows aws cluster) as [t [first|e|c]]; [|done..].
    destruct (Hrows first eq_refl) as [Hfirst _]. simpl.
    destruct (table_rows aws clusters) as [t' [more|e|c]]; [|done..].
    destruct (IH more eq_refl) as [Hmore Hsorted]. simpl.
    intros [= <-]. split.
    + apply Forall_app. split.
      * eapply Forall_impl; [exact Hfirst|]. intros row ->. set_solver.
      * eapply Forall_impl; [exact Hmore|]. intros row ?. set_solver.
    + intros [Hle Htail]%StronglySorted_cons.
      rewrite fmap_app. apply StronglySorted_app. split_and!.
      * intros x1 x2 (r1 & -> & Hr1)%list_elem_of_fmap
                     (r2 & -> & Hr2)%list_elem_of_fmap.
        rewrite Forall_forall in Hfirst. rewrite Forall_forall in Hmore.
        rewrite Forall_forall in Hle.
        rewrite (Hfirst _ Hr1). apply Hle, Hmore, Hr2.
      * apply (StronglySorted_constant cluster), Forall_fmap.
        eapply Forall_impl; [exact Hfirst|]. done.
      * by apply Hsorted.
Qed.

(** X16: the rows of the overview come in ascending order of cluster
    name, and each row belongs to one of the clusters listed. *)
Theorem table_rows_in_order clusters rows :
  (table_rows aws (Str.sorted clusters)).2 = Finished rows →
  StronglySorted String.le (row_cluster <$> rows)
  ∧ Forall (λ row, row_cluster row ∈ clusters) rows.
Proof.
  intros [Hin Hsorted]%table_rows_clusters. split.
  - apply Hsorted, sorted_StronglySorted.
  - eapply Forall_impl; [exact Hin|]. intros row Hrow.
    by rewrite <- (sorted_Permutation clusters).
Qed.

End overview_order.

(** ** The plain table *)

Lemma py_len_app (a b : string) :
  py_len (a ++ b) = (py_len a + py_len b)%nat.
Proof.
  induction a as [|c a IH]; [done|].
  change (String c a ++ b) with (String c (a ++ b)). simpl. rewrite IH. lia.
Qed.

Lemma py_len_repeat_char c n :
  is_continuation c = false → py_len (repeat_char c n) = n.
Proof. intros Hc. induction n as [|n IH]; simpl; [done|]. by rewrite Hc, IH. Qed.

Lemma py_len_format_cell w s :
  (py_len s ≤ w)%nat → py_len (format_cell w s) = w.
Proof.
  intros Hw. unfold format_cell.
  rewrite py_len_app, py_len_repeat_char by done. lia.
Qed.

Lemma join_cons sep x l :
  l ≠ [] → Str.join sep (x :: l) = x ++ sep ++ Str.join sep l.
Proof. by destruct l. Qed.

Lemma py_len_join_cells row : ∀ widths k,
  (∀ (i : nat) w, widths !! i = Some w →
                  (py_len (cell_text row (k + i)) ≤ w)%nat) →
  py_len (Str.join " | "
            (imap (λ i w, format_cell w (cell_text row (k + i)%nat)) widths))
  = (sum_list widths + 3 * (length widths - 1))%nat.
Proof.
  induction widths as [|w widths IH]; intros k Hfit; [done|].
  rewrite imap_cons.
  assert (Hw : py_len (format_cell w (cell_text row (k + 0)%nat)) = w)
    by (apply py_len_format_cell, (Hfit 0%nat); done).
  destruct widths as [|w' widths].
  - simpl. simpl in Hw. rewrite Hw. lia.
  - remember (w' :: widths) as rest eqn:Hrest.
    rewrite (imap_ext _ (λ i w0, format_cell w0 (cell_text row (S k + i)%nat)))
      by (intros i x _; simpl; by rewrite Nat.add_succ_r).
    rewrite join_cons.
    2: { intros Hnil%(f_equal length). rewrite length_imap in Hnil.
         by subst rest. }
    rewrite !py_len_app, Hw, (IH (S k)).
    + subst rest. simpl. lia.
    + intros i w0 Hi. specialize (Hfit (S i) w0 Hi).
      by rewrite Nat.add_succ_r in Hfit.
Qed.

Lemma col_widths_fit head rows row i w :
  col_widths head rows !! i = Some w → row ∈ head :: rows →
  (py_len (cell_text row i) ≤ w)%nat.
Proof.
  unfold col_widths. rewrite list_lookup_fmap.
  destruct (seq 0 (length head) !! i) as [j|] eqn:Hseq; [|done].
  apply lookup_seq in Hseq as [-> _]. intros [= <-] Hin.
  change (py_len (cell_text row i)
          ≤ max_list ((λ row, py_len (cell_text row i)) <$> head :: rows))%nat.
  apply max_list_elem_of_le, list_elem_of_fmap. by exists row.
Qed.

Lemma length_col_widths head rows :
  length (col_widths head rows) = length head.
Proof. unfold col_widths. by rewrite length_fmap, length_seq. Qed.

Lemma py_len_format_row head rows row :
  row ∈ head :: rows →
  py_len (format_row (col_widths head rows) row)
  = (sum_list (col_widths head rows) + 3 * (length head - 1))%nat.
Proof.
  intros Hin. unfold format_row.
  rewrite <- (length_col_widths head rows).
  apply (py_len_join_cells row (col_widths head rows) 0%nat).
  intros i w Hi. simpl. by eapply col_widths_fit.
Qed.

(** The lines of the plain table all have the same number of characters:
    the widths of the columns and three for each separator. *)
Lemma table_lines_aligned head rows line :
  line ∈ table_lines head rows →
  py_len line
  = (sum_list (col_widths head (map row_text rows))
     + 3 * (length head - 1))%nat.
Proof.
  unfold table_lines. cbv zeta.
  intros [->|[->|Hin]%elem_of_cons]%elem_of_cons.
  - apply py_len_format_row. set_solver.
  - unfold rule. by apply py_len_repeat_char.
  - apply list_elem_of_In, in_map_iff in Hin as (row & <- & Hin).
    apply py_len_format_row. apply list_elem_of_In in Hin. set_solver.
Qed.

Section table_properties.
Variable aws : world.

(** X15: without [tabulate], all lines the overview prints have the same
    number of characters. *)
Theorem display_clusters_table_aligned :
  tabulate_installed aws = false →
  ∃ width, ∀ line,
    Printed line ∈ (display_clusters_table aws).1 → py_len line = width.
Proof.
  intros Hplain. unfold display_clusters_table, get_all_clusters, call.
  destruct (list_clusters aws) as [pages|e].
  2: { exists 0%nat. simpl. intros line H.
       apply elem_of_cons in H as [H|H]; [done|]. by apply elem_of_nil in H. }
  cbn [bind ret fst snd app].
  destruct (last_segment <$> concat (default [] <$> pages))
    as [|cluster clusters].
  { eexists. cbn. intros line H.
    apply elem_of_cons in H as [H|H]; [done|].
    apply elem_of_cons in H as [[= ->]|H]; [done|]. by apply elem_of_nil in H. }
  pose proof (table_rows_trace aws (Str.sorted (cluster :: clusters))) as Htr.
  destruct (table_rows_finished aws (Str.sorted (cluster :: clusters)))
    as (rows & Hrows & _).
  destruct (table_rows aws _) as [t r]. simpl in Hrows, Htr. subst r.
  cbn [bind]. rewrite Hplain, print_all_spec. cbn [bind fst snd app].
  exists (sum_list (col_widths headers (map row_text rows))
          + 3 * (length headers - 1))%nat.
  intros line Hin.
  apply elem_of_cons in Hin as [Hin|Hin]; [done|].
  apply elem_of_app in Hin as [Hin|Hin].
  - rewrite Forall_forall in Htr. by apply Htr in Hin.
  - apply list_elem_of_fmap in Hin as (l & [= <-] & Hin).
    by apply table_lines_aligned.
Qed.

End table_properties.

(** ** The pipeline *)

Lemma find_container_name_returns_requested
    order task task_definition specified_container name wanted :
  find_container_name order task task_definition specified_container
    = Return name →
  requested specified_container = Some wanted → name = wanted.
Proof.
  unfold find_container_name.
  destruct specified_container as [[|c s]|]; [done| |done].
  case_bool_decide; [done|]. by intros [= <-] [= <-].
Qed.

Ltac step :=
  cbn -[find_task find_container_name execute_interactive_command
        String.append task_definition_name last_segment].

Ltac in_trace H :=
  repeat (apply elem_of_cons in H as [H|H]; [try discriminate H|]);
  try (by apply elem_of_nil in H).

Section main_properties.
Variable fromisoformat : string → option datetime.t.
Variable order : set_order.
Variable aws : world.

Lemma execute_interactive_command_spec cluster task_id container command :
  ∃ before after,
    execute_interactive_command aws cluster task_id container command
    = ((Printed before ::
        Printed ("Executing command: " ++ command) ::
        Ran (aws_cmd cluster task_id container command) ::
        (Printed <$> after))%list,
       match run aws (aws_cmd cluster task_id container command) with
       | Completed | KeyboardInterrupt => Finished tt
       | CalledProcessError _ _ => Exited 1
       | RunRaised e => Thrown e
       end).
Proof.
  unfold execute_interactive_command, bind, print. simpl.
  destruct (run aws _) as [| |str_e [[|c s]|]|e]; simpl;
    eexists _, _; f_equal; f_equal; f_equal; f_equal;
    match goal with
    | |- ?l = Printed <$> _ =>
        match l with
        | [] => by instantiate (1 := [])
        | [Printed ?a] => by instantiate (1 := [a])
        | [Printed ?a; Printed ?b] => by instantiate (1 := [a; b])
        end
    end.
Qed.

Lemma main_run_inversion args argv :
  Ran argv ∈ (main fromisoformat order aws args).1 →
  ∃ cluster service task_arns tasks task task_definition container,
    requested (Args.cluster_name args) = Some cluster
    ∧ requested (Args.service_name args) = Some service
    ∧ list_tasks aws cluster service = Response (Some task_arns)
    ∧ describe_tasks aws cluster task_arns = Response tasks
    ∧ task ∈ tasks
    ∧ (∀ wanted, requested (Args.task args) = Some wanted →
                 task_ident task = wanted)
    ∧ describe_task_definition aws
        (task_definition_name (Task.taskDefinitionArn task))
      = Response task_definition
    ∧ container ∈ container_names task
    ∧ (∀ wanted, requested (Args.container args) = Some wanted →
                 container = wanted)
    ∧ argv = aws_cmd cluster (task_ident task) container (Args.shell args)
    ∧ (main fromisoformat order aws args).2 =
      match run aws argv with
      | Completed | KeyboardInterrupt => Finished tt
      | _ => Exited 1
      end.
Proof.
  unfold main.
  assert (Htable : Ran argv ∈ (display_clusters_table aws).1 → False).
  { intros Hin. pose proof (display_clusters_table_trace aws) as Hall.
    rewrite Forall_forall in Hall. exact (Hall _ Hin). }
  destruct (Args.cluster_name args) as [[|c0 cl]|]; try done;
    destruct (Args.service_name args) as [[|s0 sv]|]; try done.
  set (cluster := String c0 cl). set (service := String s0 sv).
  clear Htable. simpl requested.
  unfold get_tasks_for_service, call, get_task_definition.
  destruct (list_tasks aws cluster service) as [[[|arn arns]|]|e] eqn:Hlist;
    step.
  1,3: intros H; by in_trace H.
  2: { destruct e as [[| |]| |]; step; intros H; by in_trace H. }
  destruct (describe_tasks aws cluster (arn :: arns)) as [[|t ts]|e] eqn:Hdesc;
    step.
  1: intros H; by in_trace H.
  2: { destruct e as [[| |]| |]; step; intros H; by in_trace H. }
  destruct (find_task fromisoformat (t :: ts) (Args.task args))
    as [task|e] eqn:Hfind;
    step.
  2: { destruct e as [| |]; step; intros H; by in_trace H. }
  destruct (describe_task_definition aws
              (task_definition_name (Task.taskDefinitionArn task)))
    as [task_definition|e] eqn:Hdef;
    step.
  2: { destruct e as [[| |]| |]; step; intros H; by in_trace H. }
  destruct (find_container_name order task task_definition
              (Args.container args)) as [container|e] eqn:Hcont;
    step.
  2: { destruct e as [| |]; step; intros H; by in_trace H. }
  destruct (execute_interactive_command_spec cluster
              (last_segment (Task.taskArn task)) container (Args.shell args))
    as (before & after & ->).
  intros Hin.
  assert (Hargv : argv = aws_cmd cluster (last_segment (Task.taskArn task))
                           container (Args.shell args)).
  { destruct (run aws _) as [| | |e]; [..|destruct e as [[| |]| |]];
      cbn in Hin; rewrite ?app_nil_r in Hin;
      repeat (apply elem_of_cons in Hin as [Hin|Hin]; [try discriminate Hin|]);
      try (by injection Hin);
      try (apply elem_of_app in Hin as [Hin|Hin]);
      try (apply list_elem_of_fmap in Hin as (? & ? & ?); discriminate);
      by in_trace Hin. }
  clear Hin.
  apply find_task_return_inv in Hfind as [Hin Hwanted].
  exists cluster, service, (arn :: arns), (t :: ts), task, task_definition,
    container.
  repeat split; try done.
  - by eapply find_container_name_return_inv.
  - intros wanted. by eapply find_container_name_returns_requested.
  - rewrite Hargv.
    destruct (run aws _) as [| | |e]; [done..|].
    by destruct e as [[| |]| |].
Qed.


(** X8: a command that [main] runs is the [aws ecs execute-command] line
    for the cluster named on the command line, a task among those described
    for the service, and a container of that task; the task and the
    container are the ones asked for, where they were asked for. *)
Theorem main_runs_selected args argv :
  Ran argv ∈ (main fromisoformat order aws args).1 →
  ∃ cluster service task_arns tasks task container,
    requested (Args.cluster_name args) = Some cluster
    ∧ requested (Args.service_name args) = Some service
    ∧ list_tasks aws cluster service = Response (Some task_arns)
    ∧ describe_tasks aws cluster task_arns = Response tasks
    ∧ task ∈ tasks
    ∧ (∀ wanted, requested (Args.task args) = Some wanted →
                 task_ident task = wanted)
    ∧ container ∈ container_names task
    ∧ (∀ wanted, requested (Args.container args) = Some wanted →
                 container = wanted)
    ∧ argv = aws_cmd cluster (task_ident task) container (Args.shell args).
Proof.
  intros (cluster & service & task_arns & tasks & task & task_definition
          & container & ? & ? & ? & ? & ? & ? & ? & ? & ? & ? & ?)
         %main_run_inversion.
  by exists cluster, service, task_arns, tasks, task, container.
Qed.

(** X9: once the command is run, how it ends decides how [main] ends:
    normally when the command completes or is interrupted from the
    keyboard, with exit status 1 when it fails or cannot be started. *)
Theorem main_run_ending args argv :
  Ran argv ∈ (main fromisoformat order aws args).1 →
  (main fromisoformat order aws args).2 =
  match run aws argv with
  | Completed | KeyboardInterrupt => Finished tt
  | CalledProcessError _ _ | RunRaised _ => Exited 1
  end.
Proof.
  intros (cluster & service & task_arns & tasks & task & task_definition
          & container & ? & ? & ? & ? & ? & ? & ? & ? & ? & ? & ->)
         %main_run_inversion.
  by destruct (run aws argv).
Qed.



(** X11: without a cluster or without a service on the command line,
    [main] only prints and looks up clusters and services, whatever the
    other options say: it lists no tasks, fetches no task definition and
    runs no command. *)
Theorem main_overview args :
  requested (Args.cluster_name args) = None
  ∨ requested (Args.service_name args) = None →
  Forall overview_event (main fromisoformat order aws args).1.
Proof.
  unfold main. pose proof (display_clusters_table_trace aws).
  destruct (Args.cluster_name args) as [[|c0 cl]|];
    destruct (Args.service_name args) as [[|s0 sv]|]; try done.
  by intros [|].
Qed.

(** X12: when the service lists no tasks, [main] says so and ends
    normally; the tasks are not described and nothing is run. *)
Theorem main_no_tasks args cluster service listed :
  requested (Args.cluster_name args) = Some cluster →
  requested (Args.service_name args) = Some service →
  list_tasks aws cluster service = Response listed →
  default [] listed = [] →
  main fromisoformat order aws args
  = ([ListTasks cluster service;
      Printed ("No running tasks found for service '" ++ service
               ++ "' in cluster '" ++ cluster ++ "'")],
     Finished tt).
Proof.
  unfold main.
  destruct (Args.cluster_name args) as [[|c0 cl]|]; try done;
    destruct (Args.service_name args) as [[|s0 sv]|]; try done.
  intros [= <-] [= <-] Hlist Hnone.
  unfold get_tasks_for_service, call. rewrite Hlist. step.
  by rewrite Hnone.
Qed.

(** X13: when no task is asked for and the start times of the tasks are
    partly naive and partly aware, [main] reports the [TypeError] as an
    unexpected error and ends with exit status 1, before any task
    definition is fetched. *)
Theorem main_mixed_start_times args cluster service task_arns tasks naive aware :
  requested (Args.cluster_name args) = Some cluster →
  requested (Args.service_name args) = Some service →
  requested (Args.task args) = None →
  list_tasks aws cluster service = Response (Some task_arns) →
  task_arns ≠ [] →
  describe_tasks aws cluster task_arns = Response tasks →
  naive ∈ tasks →
  datetime.is_aware (get_start_time fromisoformat naive) = false →
  aware ∈ tasks →
  datetime.is_aware (get_start_time fromisoformat aware) = true →
  main fromisoformat order aws args
  = ([ListTasks cluster service; DescribeTasks cluster task_arns;
      Printed ("Unexpected error: "
               ++ "can't compare offset-naive and offset-aware datetimes")],
     Exited 1).
Proof.
  unfold main.
  destruct (Args.cluster_name args) as [[|c0 cl]|]; try done;
    destruct (Args.service_name args) as [[|s0 sv]|]; try done.
  intros [= <-] [= <-] Hid Hlist Harns Hdesc Hn Hkn Ha Hka.
  assert (Hfind : find_task fromisoformat tasks (Args.task args)
                  = Raise naive_aware).
  { rewrite <- (find_task_mixed_raises fromisoformat tasks naive aware)
      by done.
    destruct (Args.task args) as [[|c s]|]; done. }
  unfold get_tasks_for_service, call. rewrite Hlist.
  destruct task_arns as [|arn arns]; [done|]. step. rewrite Hdesc.
  destruct tasks as [|t ts]; [by apply elem_of_nil in Hn|].
  step. rewrite Hfind. done.
Qed.

(** X18: when the task asked for is not among the tasks of the service,
    [main] prints the identifiers there are, sorted, and ends with exit
    status 1; no task definition is fetched and nothing is run. *)
Theorem main_task_not_found args cluster service task_arns tasks wanted :
  requested (Args.cluster_name args) = Some cluster →
  requested (Args.service_name args) = Some service →
  requested (Args.task args) = Some wanted →
  list_tasks aws cluster service = Response (Some task_arns) →
  task_arns ≠ [] →
  describe_tasks aws cluster task_arns = Response tasks →
  tasks ≠ [] →
  Forall (λ task, task_ident task ≠ wanted) tasks →
  main fromisoformat order aws args
  = ([ListTasks cluster service; DescribeTasks cluster task_arns;
      Printed ("Error: Task '" ++ wanted ++ "' not found. Available tasks: "
               ++ Str.join ", " (Str.sorted (task_ident <$> tasks)))],
     Exited 1).
Proof.
  unfold main.
  destruct (Args.cluster_name args) as [[|c0 cl]|]; try done;
    destruct (Args.service_name args) as [[|s0 sv]|]; try done.
  intros [= <-] [= <-] Hid Hlist Harns Hdesc Htasks Hnone.
  unfold get_tasks_for_service, call. rewrite Hlist.
  destruct task_arns as [|arn arns]; [done|]. step. rewrite Hdesc.
  destruct tasks as [|t ts]; [done|]. step.
  destruct (Args.task args) as [[|c s]|]; try done.
  injection Hid as <-. unfold find_task.
  rewrite find_no_match; [done|].
  eapply Forall_impl; [exact Hnone|]. intros task. apply String.eqb_neq.
Qed.

(** X19: when the container asked for is not in the selected task, [main]
    prints the names of the containers there are, sorted, and ends with
    exit status 1; nothing is run. *)
Theorem main_container_not_found
    args cluster service task_arns tasks task task_definition wanted :
  requested (Args.cluster_name args) = Some cluster →
  requested (Args.service_name args) = Some service →
  list_tasks aws cluster service = Response (Some task_arns) →
  task_arns ≠ [] →
  describe_tasks aws cluster task_arns = Response tasks →
  find_task fromisoformat tasks (Args.task args) = Return task →
  describe_task_definition aws
    (task_definition_name (Task.taskDefinitionArn task))
  = Response task_definition →
  requested (Args.container args) = Some wanted →
  wanted ∉ container_names task →
  main fromisoformat order aws args
  = ([ListTasks cluster service; DescribeTasks cluster task_arns;
      DescribeTaskDefinition
        (task_definition_name (Task.taskDefinitionArn task));
      Printed ("Error: Container '" ++ wanted ++ "' not found in task. "
               ++ "Available containers: "
               ++ Str.join ", "
                    (Str.sorted (elements (container_names task))))],
     Exited 1).
Proof.
  unfold main.
  destruct (Args.cluster_name args) as [[|c0 cl]|]; try done;
    destruct (Args.service_name args) as [[|s0 sv]|]; try done.
  intros [= <-] [= <-] Hlist Harns Hdesc Hfind Hdef Hname Hnot.
  unfold get_tasks_for_service, call, get_task_definition. rewrite Hlist.
  destruct task_arns as [|arn arns]; [done|]. step. rewrite Hdesc.
  destruct tasks as [|t ts]; [done|]. step. rewrite Hfind. step.
  rewrite Hdef. step.
  destruct (Args.container args) as [[|c s]|]; try done.
  injection Hname as <-. unfold find_container_name.
  rewrite bool_decide_true by done. rewrite sorted_iter. done.
Qed.

End main_properties.

(** ** Instances on the sample data *)

Lemma find_container_name_returns_running_witness :
  "web" ∈ container_names web_sidecar.
Proof.
  apply (find_container_name_returns_running reversed_order web_sidecar
           (app_definition true false) None "web").
  by vm_compute.
Defined.

Lemma find_container_name_raises_value_error_witness :
  ∃ msg,
    ValueError
      ("Container name must be specified with -c because it cannot be "
       ++ "automatically determined. Available containers: sidecar, web")
    = ValueError msg.
Proof.
  apply (find_container_name_raises_value_error elements_order web_sidecar
           (app_definition true true) None).
  by vm_compute.
Defined.

Lemma find_task_returns_listed_witness :
  task_B ∈ [task_A; task_B]
  ∧ ∀ wanted, requested (Some "B") = Some wanted → task_ident task_B = wanted.
Proof.
  apply (find_task_returns_listed iso.fromisoformat [task_A; task_B]
           (Some "B") task_B).
  by vm_compute.
Defined.

Lemma find_task_raises_witness :
  ([task_A; task_B] = [] ∧ naive_aware = ValueError "No running tasks found")
  ∨ ([task_A; task_B] ≠ [] ∧ naive_aware = naive_aware).
Proof.
  apply (find_task_raises iso.fromisoformat [task_A; task_B] None naive_aware).
  by vm_compute.
Defined.

Lemma task_definition_name_drops_revision_witness :
  task_definition_name
    "arn:aws:ecs:eu-west-1:111122223333:task-definition/app:7" = "app".
Proof.
  apply (task_definition_name_drops_revision
           "arn:aws:ecs:eu-west-1:111122223333:task-definition" "app" "7");
    reflexivity.
Defined.

Lemma main_runs_selected_witness :
  ∃ cluster service task_arns tasks task container,
    requested (Args.cluster_name (sample_args None None)) = Some cluster
    ∧ requested (Args.service_name (sample_args None None)) = Some service
    ∧ list_tasks (sample_world [web_sidecar; web_only] Completed)
        cluster service = Response (Some task_arns)
    ∧ describe_tasks (sample_world [web_sidecar; web_only] Completed)
        cluster task_arns = Response tasks
    ∧ task ∈ tasks
    ∧ (∀ wanted, requested (Args.task (sample_args None None)) = Some wanted →
                 task_ident task = wanted)
    ∧ container ∈ container_names task
    ∧ (∀ wanted,
         requested (Args.container (sample_args None None)) = Some wanted →
         container = wanted)
    ∧ aws_cmd "prod" "0a1b2c" "web" "bash"
      = aws_cmd cluster (task_ident task) container
          (Args.shell (sample_args None None)).
Proof.
  apply (main_runs_selected iso.fromisoformat elements_order
           (sample_world [web_sidecar; web_only] Completed)
           (sample_args None None) (aws_cmd "prod" "0a1b2c" "web" "bash")).
  vm_compute. do 5 apply list_elem_of_further. apply list_elem_of_here.
Defined.

Lemma main_run_ending_witness :
  (main iso.fromisoformat elements_order
     (sample_world [web_sidecar; web_only] KeyboardInterrupt)
     (sample_args None (Some "sidecar"))).2
  = match run (sample_world [web_sidecar; web_only] KeyboardInterrupt)
            (aws_cmd "prod" "0a1b2c" "sidecar" "bash") with
    | Completed | KeyboardInterrupt => Finished tt
    | CalledProcessError _ _ | RunRaised _ => Exited 1
    end.
Proof.
  apply (main_run_ending iso.fromisoformat elements_order
           (sample_world [web_sidecar; web_only] KeyboardInterrupt)
           (sample_args None (Some "sidecar"))
           (aws_cmd "prod" "0a1b2c" "sidecar" "bash")).
  vm_compute. do 5 apply list_elem_of_further. apply list_elem_of_here.
Defined.

Lemma main_overview_witness :
  Forall overview_event
    (main iso.fromisoformat elements_order
       (sample_world [task_A; task_B] Completed) overview_args).1.
Proof.
  apply (main_overview iso.fromisoformat elements_order
           (sample_world [task_A; task_B] Completed) overview_args).
  right. reflexivity.
Defined.

Lemma main_no_tasks_witness :
  main iso.fromisoformat elements_order (sample_world [] Completed)
    (sample_args None None)
  = ([ListTasks "prod" "web";
      Printed ("No running tasks found for service '" ++ "web"
               ++ "' in cluster '" ++ "prod" ++ "'")],
     Finished tt).
Proof.
  apply (main_no_tasks iso.fromisoformat elements_order
           (sample_world [] Completed) (sample_args None None)
           "prod" "web" None); reflexivity.
Defined.

Lemma main_mixed_start_times_witness :
  main iso.fromisoformat elements_order
    (sample_world [task_A; task_B] Completed) (sample_args None None)
  = ([ListTasks "prod" "web";
      DescribeTasks "prod" (Task.taskArn <$> [task_A; task_B]);
      Printed ("Unexpected error: "
               ++ "can't compare offset-naive and offset-aware datetimes")],
     Exited 1).
Proof.
  apply (main_mixed_start_times iso.fromisoformat elements_order
           (sample_world [task_A; task_B] Completed) (sample_args None None)
           "prod" "web" (Task.taskArn <$> [task_A; task_B])
           [task_A; task_B] task_A task_B);
    try reflexivity.
  - discriminate.
  - apply list_elem_of_here.
  - apply list_elem_of_further, list_elem_of_here.
Defined.

Lemma display_clusters_table_aligned_witness :
  ∃ width, ∀ line,
    Printed line
      ∈ (display_clusters_table (sample_world [task_A] Completed)).1 →
    py_len line = width.
Proof.
  apply (display_clusters_table_aligned (sample_world [task_A] Completed)).
  reflexivity.
Defined.

Lemma table_rows_in_order_witness :
  StronglySorted String.le (row_cluster <$> sample_rows)
  ∧ Forall (λ row, row_cluster row ∈ ["prod"; "dev"]) sample_rows.
Proof.
  apply (table_rows_in_order (sample_world [task_A] Completed)
           ["prod"; "dev"] sample_rows).
  by vm_compute.
Defined.

Lemma cluster_rows_in_order_witness :
  Forall (λ row, row_cluster row = "prod") sample_prod_rows
  ∧ StronglySorted String.le (row_service <$> sample_prod_rows).
Proof.
  apply (cluster_rows_in_order (sample_world [task_A] Completed)
           "prod" sample_prod_rows).
  by vm_compute.
Defined.

Lemma main_task_not_found_witness :
  main iso.fromisoformat elements_order
    (sample_world [task_A; task_B] Completed) (sample_args (Some "b") None)
  = ([ListTasks "prod" "web";
      DescribeTasks "prod" (Task.taskArn <$> [task_A; task_B]);
      Printed ("Error: Task '" ++ "b" ++ "' not found. Available tasks: "
               ++ Str.join ", " (Str.sorted (task_ident <$> [task_A; task_B])))],
     Exited 1).
Proof.
  apply (main_task_not_found iso.fromisoformat elements_order
           (sample_world [task_A; task_B] Completed)
           (sample_args (Some "b") None) "prod" "web"
           (Task.taskArn <$> [task_A; task_B]) [task_A; task_B] "b");
    try reflexivity; try discriminate.
  repeat constructor; by vm_compute.
Defined.

Lemma main_container_not_found_witness :
  main iso.fromisoformat elements_order
    (sample_world [web_sidecar] Completed) (sample_args None (Some "migrate"))
  = ([ListTasks "prod" "web";
      DescribeTasks "prod" (Task.taskArn <$> [web_sidecar]);
      DescribeTaskDefinition
        (task_definition_name (Task.taskDefinitionArn web_sidecar));
      Printed ("Error: Container '" ++ "migrate" ++ "' not found in task. "
               ++ "Available containers: "
               ++ Str.join ", "
                    (Str.sorted (elements (container_names web_sidecar))))],
     Exited 1).
Proof.
  apply (main_container_not_found iso.fromisoformat elements_order
           (sample_world [web_sidecar] Completed)
           (sample_args None (Some "migrate")) "prod" "web"
           (Task.taskArn <$> [web_sidecar]) [web_sidecar] web_sidecar
           (app_definition true false) "migrate");
    try reflexivity; discriminate.
Defined.
